(** * ColorThreshUtil: a shallow embedding of the colour thresholding utility

    The development follows [ColorThreshUtil/ColorThreshUtil.py] and its
    near copy [ColorThreshUtil/colorthresh.py].  The class
    [ColorThreshold] keeps a colour space index and six channel bounds,
    reads six trackbars, cycles the colour space on mouse clicks and
    thresholds the current image.  The OpenCV calls that the class makes
    are modelled in [Module cv2]; the colour conversion itself
    ([cv2.cvtColor]) is left abstract. *)

From Stdlib Require Import ZArith Lia.
From stdpp Require Import base numbers option list strings gmap.

Local Open Scope string_scope.
Local Open Scope Z_scope.

(** ** The part of OpenCV that the class calls *)

Module cv2.

(** An 8-bit channel value is a [Z]; a 3-channel pixel is a triple in the
    order of the image's channels. *)
Abbreviation Pixel := (Z * Z * Z)%type.
Abbreviation Plane := (list (list Z)).
Abbreviation Image3 := (list (list Pixel)).

(** A matrix has one channel or three. *)
Inductive Mat : Type :=
| Mat1 (p : Plane)
| Mat3 (m : Image3).

Inductive ColorConversionCode : Type :=
| COLOR_BGR2GRAY
| COLOR_BGR2HSV
| COLOR_BGR2Lab
| COLOR_BGR2Luv
| COLOR_BGR2YCrCb
| COLOR_BGR2YUV.

Definition EVENT_LBUTTONDOWN : Z := 1.
Definition EVENT_RBUTTONDOWN : Z := 2.

(** A number given as a bound reaches the comparison as a 32-bit integer:
    a value that does not fit is read as the least 32-bit integer. *)
Definition as_int32 (b : Z) : Z :=
  if bool_decide (-2147483648 ≤ b < 2147483648) then b else -2147483648.

(** [inRange] on one element: 255 when the value lies in the closed
    interval of the two bounds as read, 0 otherwise. *)
Definition inRange_px (v lowerb upperb : Z) : Z :=
  if bool_decide (as_int32 lowerb ≤ v) && bool_decide (v ≤ as_int32 upperb)
  then 255 else 0.

(** [inRange] with numeric bounds.  A number given as a bound stands for
    the scalar (n, 0, 0, 0): on a 3-channel matrix channels 1 and 2 are
    tested against 0, and the output is set where every channel passes. *)
Definition inRange (src : Mat) (lowerb upperb : Z) : Plane :=
  match src with
  | Mat1 p => map (map (fun v => inRange_px v lowerb upperb)) p
  | Mat3 m =>
      map (map (fun px : Pixel =>
                  let '(c0, c1, c2) := px in
                  Z.land (Z.land (inRange_px c0 lowerb upperb)
                                 (inRange_px c1 0 0))
                         (inRange_px c2 0 0))) m
  end.

(** [split] gives one plane per channel. *)
Definition split (m : Mat) : list Plane :=
  match m with
  | Mat1 p => [p]
  | Mat3 m =>
      [ map (map (fun px : Pixel => px.1.1)) m;
        map (map (fun px : Pixel => px.1.2)) m;
        map (map (fun px : Pixel => px.2)) m ]
  end.

(** [bitwise_and] of two planes of the same shape, element by element. *)
Definition bitwise_and (a b : Plane) : Plane :=
  zip_with (zip_with Z.land) a b.

(** A trackbar has a position and a maximal position. *)
Record Trackbar : Type := mkTrackbar { pos : Z; count : Z }.

(** What a window shows: a matrix, or the button of the controls window
    with its text drawn on it. *)
Inductive Shown : Type :=
| ShowMat (m : Mat)
| ShowButton (text : string).

Record Window : Type := mkWindow {
  content : option Shown;
  trackbars : gmap string Trackbar
}.

(** The state of the GUI: the windows by name. *)
Abbreviation HighGUI := (gmap string Window).

Definition namedWindow (winname : string) (g : HighGUI) : HighGUI :=
  match g !! winname with
  | Some _ => g
  | None => <[winname := mkWindow None ∅]> g
  end.

Definition imshow (winname : string) (s : Shown) (g : HighGUI) : HighGUI :=
  match g !! winname with
  | Some w => <[winname := mkWindow (Some s) (trackbars w)]> g
  | None => <[winname := mkWindow (Some s) ∅]> g
  end.

Definition createTrackbar (trackbarname winname : string) (value count : Z)
    (g : HighGUI) : HighGUI :=
  match g !! winname with
  | Some w =>
      <[winname := mkWindow (content w)
                     (<[trackbarname := mkTrackbar value count]> (trackbars w))]> g
  | None => g
  end.

(** The position of a trackbar; -1 when the window or the trackbar does
    not exist. *)
Definition getTrackbarPos (trackbarname winname : string) (g : HighGUI) : Z :=
  match g !! winname with
  | Some w =>
      match trackbars w !! trackbarname with
      | Some t => pos t
      | None => -1
      end
  | None => -1
  end.

End cv2.

Import cv2.

(** ** The state of the program *)

Inductive Source : Type :=
| SrcPath (p : string)
| SrcCam (i : Z).

(** The attribute [img]: the object has none until [start] assigns it;
    then it holds a frame, or [None] when the read gave no frame. *)
Inductive ImgAttr : Type :=
| ImgMissing
| ImgNone
| ImgFrame (im : Image3).

Definition img_of_read (r : option Image3) : ImgAttr :=
  match r with
  | Some im => ImgFrame im
  | None => ImgNone
  end.

(** The attributes of a [ColorThreshold] object that change or are read
    after construction. *)
Record ColorThreshold : Type := mkColorThreshold {
  mode : string;
  source : Source;
  colorSpaceIdx : Z;
  ch0LowVal : Z;
  ch0HighVal : Z;
  ch1LowVal : Z;
  ch1HighVal : Z;
  ch2LowVal : Z;
  ch2HighVal : Z;
  img : ImgAttr
}.

Record World : Type := mkWorld {
  self : ColorThreshold;
  gui : HighGUI
}.

Inductive Exn : Type :=
| IndexError
| KeyError
| TypeError
| AttributeError
| cv2_error.

(** A call ends normally with a value or raises; the world reached is kept
    in both cases. *)
Inductive Res (A : Type) : Type :=
| Ok (a : A) (w : World)
| Raise (e : Exn) (w : World).
Arguments Ok {A} a w.
Arguments Raise {A} e w.

Definition M (A : Type) : Type := World → Res A.

Definition world_of {A} (r : Res A) : World :=
  match r with
  | Ok _ w => w
  | Raise _ w => w
  end.

#[global] Instance M_ret : MRet M := λ A a w, Ok a w.
#[global] Instance M_bind : MBind M := λ A B f m w,
  match m w with
  | Ok a w' => f a w'
  | Raise e w' => Raise e w'
  end.

Definition raise {A} (e : Exn) : M A := λ w, Raise e w.
Definition get_self : M ColorThreshold := λ w, Ok (self w) w.

(** Assignments to single attributes. *)
Definition set_colorSpaceIdx (v : Z) (s : ColorThreshold) : ColorThreshold :=
  mkColorThreshold (mode s) (source s) v (ch0LowVal s) (ch0HighVal s)
    (ch1LowVal s) (ch1HighVal s) (ch2LowVal s) (ch2HighVal s) (img s).
Definition set_ch0LowVal (v : Z) (s : ColorThreshold) : ColorThreshold :=
  mkColorThreshold (mode s) (source s) (colorSpaceIdx s) v (ch0HighVal s)
    (ch1LowVal s) (ch1HighVal s) (ch2LowVal s) (ch2HighVal s) (img s).
Definition set_ch0HighVal (v : Z) (s : ColorThreshold) : ColorThreshold :=
  mkColorThreshold (mode s) (source s) (colorSpaceIdx s) (ch0LowVal s) v
    (ch1LowVal s) (ch1HighVal s) (ch2LowVal s) (ch2HighVal s) (img s).
Definition set_ch1LowVal (v : Z) (s : ColorThreshold) : ColorThreshold :=
  mkColorThreshold (mode s) (source s) (colorSpaceIdx s) (ch0LowVal s)
    (ch0HighVal s) v (ch1HighVal s) (ch2LowVal s) (ch2HighVal s) (img s).
Definition set_ch1HighVal (v : Z) (s : ColorThreshold) : ColorThreshold :=
  mkColorThreshold (mode s) (source s) (colorSpaceIdx s) (ch0LowVal s)
    (ch0HighVal s) (ch1LowVal s) v (ch2LowVal s) (ch2HighVal s) (img s).
Definition set_ch2LowVal (v : Z) (s : ColorThreshold) : ColorThreshold :=
  mkColorThreshold (mode s) (source s) (colorSpaceIdx s) (ch0LowVal s)
    (ch0HighVal s) (ch1LowVal s) (ch1HighVal s) v (ch2HighVal s) (img s).
Definition set_ch2HighVal (v : Z) (s : ColorThreshold) : ColorThreshold :=
  mkColorThreshold (mode s) (source s) (colorSpaceIdx s) (ch0LowVal s)
    (ch0HighVal s) (ch1LowVal s) (ch1HighVal s) (ch2LowVal s) v (img s).

Definition assign (f : ColorThreshold → ColorThreshold) : M unit :=
  λ w, Ok tt (mkWorld (f (self w)) (gui w)).

(** [l[i]] on a Python list: a negative index counts from the end, an index
    out of range raises [IndexError]. *)
Definition py_index {A} (l : list A) (i : Z) : option A :=
  let n := Z.of_nat (length l) in
  let j := if bool_decide (i < 0) then i + n else i in
  if bool_decide (0 ≤ j) then l !! Z.to_nat j else None.

Definition py_getitem {A} (l : list A) (i : Z) : M A :=
  match py_index l i with
  | Some x => mret x
  | None => raise IndexError
  end.

(** [d[k]] on an ordered dictionary kept as its list of items. *)
Fixpoint dict_lookup {V} (d : list (string * V)) (k : string) : option V :=
  match d with
  | [] => None
  | (k', v) :: d' => if bool_decide (k' = k) then Some v else dict_lookup d' k
  end.

Definition dict_getitem {V} (d : list (string * V)) (k : string) : M V :=
  match dict_lookup d k with
  | Some v => mret v
  | None => raise KeyError
  end.

(** [self.img]: reading the attribute while the object has none raises;
    the value read is a frame or [None]. *)
Definition get_img : M (option Image3) :=
  s ← get_self;
  match img s with
  | ImgMissing => raise AttributeError
  | ImgNone => mret None
  | ImgFrame im => mret (Some im)
  end.

Definition cv_imshow (winname : string) (s : Shown) : M unit :=
  λ w, Ok tt (mkWorld (self w) (imshow winname s (gui w))).

Definition cv_getTrackbarPos (trackbarname winname : string) : M Z :=
  λ w, Ok (getTrackbarPos trackbarname winname (gui w)) w.

(** ** The class [ColorThreshold] *)

Definition PIXEL_MIN : Z := 0.
Definition PIXEL_MAX : Z := 255.

Definition CTRL_WIN : string := "Controls".
Definition THRESH_WIN : string := "Thresholded".
Definition IM_WIN : string := "Original".

(** The ordered dictionary of colour spaces; "BGR" has no conversion code. *)
Definition CV_COLOR_CODES : list (string * option ColorConversionCode) :=
  [ ("BGR", None);
    ("GRAY", Some COLOR_BGR2GRAY);
    ("HSV", Some COLOR_BGR2HSV);
    ("Lab", Some COLOR_BGR2Lab);
    ("Luv", Some COLOR_BGR2Luv);
    ("YCrCb", Some COLOR_BGR2YCrCb);
    ("YUV", Some COLOR_BGR2YUV) ].

Definition COLOR_SPACES : list string := map fst CV_COLOR_CODES.

(** The command line after [argparse]: [--image], [--video] and [--cam]
    with their defaults. *)
Record Args : Type := mkArgs {
  image : option string;
  video : option string;
  cam : Z
}.

(** The choice of mode and source in the main block. *)
Definition main (args : Args) : string * Source :=
  match image args with
  | Some p => ("image", SrcPath p)
  | None =>
      match video args with
      | Some p => ("video", SrcPath p)
      | None => ("cam", SrcCam (cam args))
      end
  end.

(** A sample conversion, used to run the model on concrete frames: the
    grey code gives the plane of channel 0, every other code swaps the
    first and the last channel. *)
Definition sample_cvtColor (src : Image3) (code : ColorConversionCode) : Mat :=
  match code with
  | COLOR_BGR2GRAY => Mat1 (map (map (fun px : Pixel => px.1.1)) src)
  | _ => Mat3 (map (map (fun px : Pixel => (px.2, px.1.2, px.1.1))) src)
  end.

Section ColorThreshold.

(** [cv2.cvtColor] on a 3-channel frame is not modelled further. *)
Variable cvtColor : Image3 → ColorConversionCode → Mat.

Definition updateButton : M unit :=
  s ← get_self;
  colorSpaceIdxText ← py_getitem COLOR_SPACES (colorSpaceIdx s);
  cv_imshow CTRL_WIN (ShowButton colorSpaceIdxText).

Definition thresholdImage : M unit :=
  s ← get_self;
  colorSpaceName ← py_getitem COLOR_SPACES (colorSpaceIdx s);
  thresh ← (if bool_decide (colorSpaceName ≠ "BGR") then
              cvColorCode ← dict_getitem CV_COLOR_CODES colorSpaceName;
              im ← get_img;
              match cvColorCode, im with
              | Some code, Some im => mret (cvtColor im code)
              | Some code, None => raise cv2_error
              | None, _ => raise TypeError
              end
            else
              im ← get_img;
              match im with
              | Some im => mret (Mat3 im)
              | None => raise AttributeError
              end);
  cv_imshow IM_WIN (ShowMat thresh);;
  thresh ← (if bool_decide (colorSpaceName = "GRAY") then
              mret (inRange thresh (ch0LowVal s) (ch0HighVal s))
            else
              let channels := split thresh in
              c0 ← py_getitem channels 0;
              let channels :=
                <[0%nat := inRange (Mat1 c0) (ch0LowVal s) (ch0HighVal s)]> channels in
              c1 ← py_getitem channels 1;
              let channels :=
                <[1%nat := inRange (Mat1 c1) (ch1LowVal s) (ch1HighVal s)]> channels in
              c2 ← py_getitem channels 2;
              let channels :=
                <[2%nat := inRange (Mat1 c2) (ch2LowVal s) (ch2HighVal s)]> channels in
              a ← py_getitem channels 0;
              b ← py_getitem channels 1;
              let thresh := bitwise_and a b in
              c ← py_getitem channels 2;
              mret (bitwise_and thresh c));
  cv_imshow THRESH_WIN (ShowMat (Mat1 thresh)).

Definition onTrackbar (val : Z) : M unit :=
  v ← cv_getTrackbarPos "Ch0 Low" CTRL_WIN; assign (set_ch0LowVal v);;
  v ← cv_getTrackbarPos "Ch0 High" CTRL_WIN; assign (set_ch0HighVal v);;
  v ← cv_getTrackbarPos "Ch1 Low" CTRL_WIN; assign (set_ch1LowVal v);;
  v ← cv_getTrackbarPos "Ch1 High" CTRL_WIN; assign (set_ch1HighVal v);;
  v ← cv_getTrackbarPos "Ch2 Low" CTRL_WIN; assign (set_ch2LowVal v);;
  v ← cv_getTrackbarPos "Ch2 High" CTRL_WIN; assign (set_ch2HighVal v);;
  s ← get_self;
  if bool_decide (mode s = "image") then thresholdImage else mret tt.

Definition onMouse (event x y flags data : Z) : M unit :=
  if bool_decide (event = EVENT_LBUTTONDOWN) || bool_decide (event = EVENT_RBUTTONDOWN)
  then
    let increment := if bool_decide (event = EVENT_LBUTTONDOWN) then 1 else -1 in
    s ← get_self;
    assign (set_colorSpaceIdx
              ((colorSpaceIdx s + increment) `mod` Z.of_nat (length COLOR_SPACES)));;
    updateButton;;
    s ← get_self;
    if bool_decide (mode s = "image") then thresholdImage else mret tt
  else mret tt.

(** The constructor: the attributes, the two windows, the six trackbars of
    the controls window and the button. *)
Definition init (mode : string) (source : Source) (g : HighGUI) : Res unit :=
  let s := mkColorThreshold mode source 0
             PIXEL_MIN PIXEL_MAX PIXEL_MIN PIXEL_MAX PIXEL_MIN PIXEL_MAX ImgMissing in
  let g := namedWindow CTRL_WIN g in
  let g := namedWindow THRESH_WIN g in
  let g := createTrackbar "Ch0 Low" CTRL_WIN (ch0LowVal s) PIXEL_MAX g in
  let g := createTrackbar "Ch0 High" CTRL_WIN (ch0HighVal s) PIXEL_MAX g in
  let g := createTrackbar "Ch1 Low" CTRL_WIN (ch1LowVal s) PIXEL_MAX g in
  let g := createTrackbar "Ch1 High" CTRL_WIN (ch1HighVal s) PIXEL_MAX g in
  let g := createTrackbar "Ch2 Low" CTRL_WIN (ch2LowVal s) PIXEL_MAX g in
  let g := createTrackbar "Ch2 High" CTRL_WIN (ch2HighVal s) PIXEL_MAX g in
  updateButton (mkWorld s g).

(** The world after a list of mouse events, each delivered to [onMouse];
    an exception raised by a callback does not stop the delivery of the
    following events. *)
Definition deliver (events : list Z) (w : World) : World :=
  foldl (λ w ev, world_of (onMouse ev 0 0 0 0 w)) w events.

End ColorThreshold.

(** ** Observations and sample data *)

(** What a window shows, and the element of a plane at a row and column. *)
Definition shown (winname : string) (w : World) : option Shown :=
  gui w !! winname ≫= content.

Definition pixel_at (p : Plane) (i j : nat) : option Z :=
  p !! i ≫= (.!! j).

(** The six stored bounds, in the order of the sliders. *)
Definition bounds (s : ColorThreshold) : list Z :=
  [ch0LowVal s; ch0HighVal s; ch1LowVal s; ch1HighVal s; ch2LowVal s; ch2HighVal s].

(** The positions of the six sliders of the controls window. *)
Definition slider_positions (g : HighGUI) : list Z :=
  map (λ name, getTrackbarPos name CTRL_WIN g)
      ["Ch0 Low"; "Ch0 High"; "Ch1 Low"; "Ch1 High"; "Ch2 Low"; "Ch2 High"].

(** A computation that leaves the attributes of the object as they are. *)
Definition preserves_self {A} (m : M A) : Prop :=
  ∀ w, self (world_of (m w)) = self w.

(** The GUI right after construction, and a world with given attributes
    over it. *)
Definition sample_gui : HighGUI :=
  gui (world_of (init "cam" (SrcCam 0) ∅)).

Definition sample_world (mode : string) (idx : Z) (b : list Z) (im : Image3) : World :=
  mkWorld
    (mkColorThreshold mode (SrcCam 0) idx
       (b !!! 0%nat) (b !!! 1%nat) (b !!! 2%nat) (b !!! 3%nat) (b !!! 4%nat) (b !!! 5%nat)
       (ImgFrame im))
    sample_gui.

Definition sample_frame : Image3 :=
  [ [(100, 10, 10); (200, 10, 10); (150, 0, 255)];
    [(99, 10, 10); (201, 10, 10); (150, 7, 7)] ].

(** ** The rest of the class and the event loop *)

(** [getValues] of [colorthresh.py] returns a dictionary whose values are a
    string or an integer. *)
Inductive PyVal : Type :=
| PyStr (s : string)
| PyInt (z : Z).

Definition set_img (v : ImgAttr) (s : ColorThreshold) : ColorThreshold :=
  mkColorThreshold (mode s) (source s) (colorSpaceIdx s) (ch0LowVal s)
    (ch0HighVal s) (ch1LowVal s) (ch1HighVal s) (ch2LowVal s) (ch2HighVal s) v.

Definition getValues : M (list (string * PyVal)) :=
  s ← get_self;
  colorSpaceName ← py_getitem COLOR_SPACES (colorSpaceIdx s);
  mret [ ("colorSpaceName", PyStr colorSpaceName);
         ("ch0Low", PyInt (ch0LowVal s));
         ("ch0High", PyInt (ch0HighVal s));
         ("ch1Low", PyInt (ch1LowVal s));
         ("ch1High", PyInt (ch1HighVal s));
         ("ch2Low", PyInt (ch2LowVal s));
         ("ch2High", PyInt (ch2HighVal s)) ].

(** What the user does to the controls window between two returns of
    [cv2.waitKey]: a mouse event in the window, or a slider dragged to a
    position. *)
Inductive GuiEvent : Type :=
| MouseEvent (event x y flags : Z)
| TrackbarEvent (trackbarname : string) (position : Z).

(** A slider dragged to a position: the widget keeps the position between
    0 and the maximum given when the trackbar was created. *)
Definition moveTrackbar (trackbarname winname : string) (position : Z)
    (g : HighGUI) : HighGUI :=
  match g !! winname with
  | Some w =>
      match trackbars w !! trackbarname with
      | Some t =>
          <[winname := mkWindow (content w)
                         (<[trackbarname :=
                              mkTrackbar (Z.max 0 (Z.min position (count t))) (count t)]>
                            (trackbars w))]> g
      | None => g
      end
  | None => g
  end.

(** One return of [cv2.waitKey]: the events handled before it returns, and
    the key code returned (-1 when no key was pressed). *)
Record Poll : Type := mkPoll {
  events : list GuiEvent;
  key : Z
}.

Definition no_poll : Poll := mkPoll [] (-1).

Definition next_poll (polls : list Poll) : Poll * list Poll :=
  match polls with
  | [] => (no_poll, [])
  | p :: polls' => (p, polls')
  end.

(** [ord("q")] *)
Definition ord_q : Z := 113.

(** How [start] ends: it returns, or an exception leaves it; or, after all
    the returns of [cv2.waitKey] that are given, it is still waiting for a
    key. *)
Inductive StartExn : Type :=
| RuntimeError
| CvError
| Uncaught (e : Exn).

Inductive StartRes : Type :=
| Finished (w : World)
| Aborted (e : StartExn) (w : World)
| Waiting (w : World).

Definition final_world (r : StartRes) : World :=
  match r with
  | Finished w => w
  | Aborted _ w => w
  | Waiting w => w
  end.

Section EventLoop.

Variable cvtColor : Image3 → ColorConversionCode → Mat.

(** [cv2.imread]: [None] when the file cannot be read. *)
Variable imread : Source → option Image3.

(** [cv2.VideoCapture] and the frames its [read] gives one after the
    other: [None] when the capture cannot be opened. *)
Variable VideoCapture : Source → option (list Image3).

(** An event is handed to the callback registered for it.  A callback that
    raises does not stop the program: the exception is reported and the
    loop goes on in the world reached. *)
Definition dispatch (w : World) (e : GuiEvent) : World :=
  match e with
  | MouseEvent event x y flags => world_of (onMouse cvtColor event x y flags 0 w)
  | TrackbarEvent trackbarname position =>
      match gui w !! CTRL_WIN ≫= (λ win, trackbars win !! trackbarname) with
      | Some _ =>
          let g := moveTrackbar trackbarname CTRL_WIN position (gui w) in
          world_of (onTrackbar cvtColor (getTrackbarPos trackbarname CTRL_WIN g)
                      (mkWorld (self w) g))
      | None => w
      end
  end.

Definition pump (evs : list GuiEvent) (w : World) : World :=
  foldl dispatch w evs.

(** [cv2.waitKey(0)]: events are handled until a key is pressed; a return
    with key code -1 stands for a wake-up without a key, after which the
    call goes on waiting. *)
Fixpoint wait_for_key (polls : list Poll) (w : World) : StartRes :=
  match polls with
  | [] => Waiting w
  | p :: polls' =>
      let w := pump (events p) w in
      if bool_decide (key p = -1) then wait_for_key polls' w else Finished w
  end.

(** The loop of [start] in video and camera mode, on the frames that the
    capture gives before a read fails and the returns of [cv2.waitKey(1)]
    to come. *)
Fixpoint capture_loop (frames : list Image3) (polls : list Poll) (w : World) : StartRes :=
  match frames with
  | [] => Finished (mkWorld (set_img ImgNone (self w)) (gui w))
  | frame :: frames' =>
      let w := mkWorld (set_img (ImgFrame frame) (self w)) (gui w) in
      let w := pump (events (next_poll polls).1) w in
      if bool_decide (key (next_poll polls).1 = ord_q) then Finished w
      else
        match (im ← get_img;
               match im with
               | Some im => cv_imshow IM_WIN (ShowMat (Mat3 im))
               | None => raise cv2_error
               end;;
               thresholdImage cvtColor) w with
        | Ok _ w' => capture_loop frames' (next_poll polls).2 w'
        | Raise e w' => Aborted (Uncaught e) w'
        end
  end.

(** [start] of [ColorThreshUtil.py]. *)
Definition start (polls : list Poll) (w : World) : StartRes :=
  if bool_decide (mode (self w) = "image") then
    let im := imread (source (self w)) in
    let w := mkWorld (set_img (img_of_read im) (self w)) (gui w) in
    match im with
    | None => Aborted CvError w
    | Some frame =>
        let w := mkWorld (self w) (imshow IM_WIN (ShowMat (Mat3 frame)) (gui w)) in
        match thresholdImage cvtColor w with
        | Ok _ w' => wait_for_key polls w'
        | Raise e w' => Aborted (Uncaught e) w'
        end
    end
  else
    match VideoCapture (source (self w)) with
    | None => Aborted RuntimeError w
    | Some frames => capture_loop frames polls w
    end.

(** The main block: the object is built from the parsed arguments and
    started. *)
Definition run (args : Args) (polls : list Poll) (g : HighGUI) : StartRes :=
  match init (main args).1 (main args).2 g with
  | Ok _ w => start polls w
  | Raise e w => Aborted (Uncaught e) w
  end.

End EventLoop.

(** ** Predicates on worlds and frames *)

Definition slider_names : list string :=
  ["Ch0 Low"; "Ch0 High"; "Ch1 Low"; "Ch1 High"; "Ch2 Low"; "Ch2 High"].

(** The trackbars of the controls window. *)
Definition ctrl_trackbars (g : HighGUI) : gmap string Trackbar :=
  from_option trackbars ∅ (g !! CTRL_WIN).

(** The six sliders exist, with maximum 255 and a position within range. *)
Definition sliders_ok (g : HighGUI) : Prop :=
  ∀ name, name ∈ slider_names →
    ∃ t, ctrl_trackbars g !! name = Some t
         ∧ count t = PIXEL_MAX ∧ PIXEL_MIN ≤ pos t ≤ PIXEL_MAX.

(** The stored bounds are the slider positions. *)
Definition in_sync (w : World) : Prop :=
  bounds (self w) = slider_positions (gui w).

(** The button shows the name of the current colour space. *)
Definition button_ok (w : World) : Prop :=
  ∃ name, py_index COLOR_SPACES (colorSpaceIdx (self w)) = Some name
          ∧ shown CTRL_WIN w = Some (ShowButton name).

Definition consistent (w : World) : Prop :=
  0 ≤ colorSpaceIdx (self w) < 7
  ∧ in_sync w ∧ sliders_ok (gui w) ∧ button_ok w.

(** Every channel value of the frame is an 8-bit value. *)
Definition is_8bit (im : Image3) : Prop :=
  Forall (Forall (λ px : Pixel,
                    (0 ≤ px.1.1 ≤ 255) ∧ (0 ≤ px.1.2 ≤ 255) ∧ (0 ≤ px.2 ≤ 255))) im.

(** Every stored bound fits a 32-bit integer. *)
Definition bounds_fit_int32 (s : ColorThreshold) : Prop :=
  Forall (λ b, -2147483648 ≤ b < 2147483648) (bounds s).

(** The three range tests of a pixel against the stored bounds. *)
Definition passes (s : ColorThreshold) (px : Pixel) : bool :=
  bool_decide (ch0LowVal s ≤ px.1.1 ≤ ch0HighVal s)
  && bool_decide (ch1LowVal s ≤ px.1.2 ≤ ch1HighVal s)
  && bool_decide (ch2LowVal s ≤ px.2 ≤ ch2HighVal s).

(** The conversion of a frame gives three channels for every code but the
    grey one. *)
Definition three_channels (cvtColor : Image3 → ColorConversionCode → Mat)
    (im : Image3) : Prop :=
  ∀ code, code ≠ COLOR_BGR2GRAY → ∃ px, cvtColor im code = Mat3 px.

(** The converted frame of a colour space with three channels: in BGR the
    stored frame itself, otherwise the conversion of the stored frame with
    the code of the colour space. *)
Definition converted_is (cvtColor : Image3 → ColorConversionCode → Mat)
    (idx : Z) (im px : Image3) : Prop :=
  if bool_decide (idx = 0) then px = im
  else ∃ name code, py_index CV_COLOR_CODES idx = Some (name, Some code)
                    ∧ cvtColor im code = Mat3 px.

(** The bounds of the first object are at least as wide as those of the
    second, channel by channel. *)
Definition wider (s1 s2 : ColorThreshold) : Prop :=
  ch0LowVal s1 ≤ ch0LowVal s2 ∧ ch0HighVal s2 ≤ ch0HighVal s1
  ∧ ch1LowVal s1 ≤ ch1LowVal s2 ∧ ch1HighVal s2 ≤ ch1HighVal s1
  ∧ ch2LowVal s1 ≤ ch2LowVal s2 ∧ ch2HighVal s2 ≤ ch2HighVal s1.

(** Sample returns of [cv2.imread] and [cv2.VideoCapture]. *)
Definition sample_imread (src : Source) : option Image3 :=
  match src with
  | SrcPath "frame.png" => Some sample_frame
  | _ => None
  end.

Definition sample_VideoCapture (src : Source) : option (list Image3) :=
  match src with
  | SrcCam 0 => Some [sample_frame; [[(1, 2, 3)]]; sample_frame]
  | SrcPath "clip.mp4" => Some [[[(1, 2, 3)]]; sample_frame]
  | _ => None
  end.

(** ** Properties *)

(** *** The range test on one value *)

Lemma inRange_px_cases v lowerb upperb :
  inRange_px v lowerb upperb = 255 ∨ inRange_px v lowerb upperb = 0.
Proof. unfold inRange_px. destruct (_ && _); auto. Qed.

Lemma as_int32_fit (b : Z) :
  -2147483648 ≤ b < 2147483648 → as_int32 b = b.
Proof. intros Hb. unfold as_int32. by rewrite bool_decide_eq_true_2. Qed.

Lemma inRange_px_255 v lowerb upperb :
  -2147483648 ≤ lowerb < 2147483648 →
  -2147483648 ≤ upperb < 2147483648 →
  inRange_px v lowerb upperb = 255 ↔ lowerb ≤ v ≤ upperb.
Proof.
  intros Hlo Hhi. unfold inRange_px. rewrite !as_int32_fit by done.
  destruct (bool_decide_reflect (lowerb ≤ v)), (bool_decide_reflect (v ≤ upperb));
    simpl; split; intros; try lia; discriminate.
Qed.

Lemma land_inRange_255 a b :
  (a = 255 ∨ a = 0) → (b = 255 ∨ b = 0) →
  Z.land a b = 255 ↔ a = 255 ∧ b = 255.
Proof. intros [-> | ->] [-> | ->]; cbn; intuition discriminate. Qed.

Lemma land_inRange_cases a b :
  (a = 255 ∨ a = 0) → (b = 255 ∨ b = 0) →
  Z.land a b = 255 ∨ Z.land a b = 0.
Proof. intros [-> | ->] [-> | ->]; cbn; auto. Qed.

(** *** Planes *)

Lemma lookup_map {A B} (f : A → B) (l : list A) (i : nat) :
  map f l !! i = f <$> l !! i.
Proof.
  revert i. induction l as [| x l IH]; intros [| i]; simpl; try done.
Qed.

Lemma pixel_at_map {A} (f : A → Z) (m : list (list A)) i j :
  pixel_at (map (map f) m) i j = f <$> (m !! i ≫= (.!! j)).
Proof.
  unfold pixel_at. rewrite lookup_map.
  destruct (m !! i) as [row |]; simpl; [| done].
  apply lookup_map.
Qed.

Lemma zip_with_map_same {A B C D} (f : B → C → D) (g : A → B) (h : A → C) (l : list A) :
  zip_with f (map g l) (map h l) = map (λ x, f (g x) (h x)) l.
Proof. induction l as [| x l IH]; simpl; [done | by rewrite IH]. Qed.

Lemma bitwise_and_map_same {A} (g h : A → Z) (m : list (list A)) :
  bitwise_and (map (map g) m) (map (map h) m) = map (map (λ x, Z.land (g x) (h x))) m.
Proof.
  unfold bitwise_and. rewrite zip_with_map_same.
  apply map_ext. intros row. apply zip_with_map_same.
Qed.

Lemma inRange_Mat1_map {A} (f : A → Z) (m : list (list A)) lowerb upperb :
  inRange (Mat1 (map (map f) m)) lowerb upperb
  = map (map (λ x, inRange_px (f x) lowerb upperb)) m.
Proof.
  simpl. rewrite map_map. apply map_ext. intros row. by rewrite map_map.
Qed.

(** *** The windows *)

Lemma imshow_lookup winname s g k :
  imshow winname s g !! k
  = if decide (winname = k)
    then Some (mkWindow (Some s) (from_option trackbars ∅ (g !! winname)))
    else g !! k.
Proof.
  unfold imshow. destruct (g !! winname) as [win |] eqn:E; simpl;
    rewrite lookup_insert; by case_decide.
Qed.

Lemma imshow_imshow winname s g :
  imshow winname s (imshow winname s g) = imshow winname s g.
Proof.
  apply map_eq. intros k. rewrite !imshow_lookup.
  case_decide; [| done]. by rewrite decide_True.
Qed.

Lemma imshow_twice_two n1 s1 n2 s2 g :
  n1 ≠ n2 →
  imshow n2 s2 (imshow n1 s1 (imshow n2 s2 (imshow n1 s1 g)))
  = imshow n2 s2 (imshow n1 s1 g).
Proof.
  intros Hne. apply map_eq. intros k. rewrite !imshow_lookup.
  repeat (case_decide; simplify_eq; simpl; try done).
Qed.

Lemma shown_imshow winname s s' g :
  shown winname (mkWorld s' (imshow winname s g)) = Some s.
Proof. unfold shown. simpl. rewrite imshow_lookup. by rewrite decide_True. Qed.

Lemma shown_imshow_ne n1 n2 s s' g :
  n1 ≠ n2 →
  shown n1 (mkWorld s' (imshow n2 s g)) = shown n1 (mkWorld s' g).
Proof.
  intros Hne. unfold shown. simpl. rewrite imshow_lookup.
  by rewrite decide_False.
Qed.

Lemma getTrackbarPos_imshow name winname s g :
  getTrackbarPos name CTRL_WIN (imshow winname s g) = getTrackbarPos name CTRL_WIN g.
Proof.
  unfold getTrackbarPos. rewrite imshow_lookup.
  case_decide as E; [| done]. subst winname. simpl.
  destruct (g !! CTRL_WIN); simpl; [done |]. by rewrite lookup_empty.
Qed.

(** *** Computations that leave the attributes alone *)

Create HintDb frame.

Lemma preserves_self_ret {A} (a : A) : preserves_self (mret a : M A).
Proof. by intros w. Qed.

Lemma preserves_self_raise {A} (e : Exn) : preserves_self (raise e : M A).
Proof. by intros w. Qed.

Lemma preserves_self_bind {A B} (m : M A) (f : A → M B) :
  preserves_self m → (∀ a, preserves_self (f a)) → preserves_self (m ≫= f).
Proof.
  intros Hm Hf w. specialize (Hm w). unfold mbind, M_bind.
  destruct (m w) as [a w' | e w']; simpl in *; [| done].
  by rewrite Hf.
Qed.

Lemma preserves_self_get_self : preserves_self get_self.
Proof. by intros w. Qed.

Lemma preserves_self_py_getitem {A} (l : list A) i : preserves_self (py_getitem l i).
Proof. intros w. unfold py_getitem. by destruct (py_index l i). Qed.

Lemma preserves_self_dict_getitem {V} (d : list (string * V)) k :
  preserves_self (dict_getitem d k).
Proof. intros w. unfold dict_getitem. by destruct (dict_lookup d k). Qed.

Lemma preserves_self_get_img : preserves_self get_img.
Proof. intros w. unfold get_img, mbind, M_bind, get_self. by destruct (img (self w)). Qed.

Lemma preserves_self_imshow winname s : preserves_self (cv_imshow winname s).
Proof. by intros w. Qed.

Lemma preserves_self_getTrackbarPos name winname :
  preserves_self (cv_getTrackbarPos name winname).
Proof. by intros w. Qed.

Lemma preserves_self_if {A} (b : bool) (m1 m2 : M A) :
  preserves_self m1 → preserves_self m2 → preserves_self (if b then m1 else m2).
Proof. by destruct b. Qed.

#[local] Hint Resolve preserves_self_ret preserves_self_raise preserves_self_get_self
  preserves_self_py_getitem preserves_self_dict_getitem preserves_self_get_img
  preserves_self_imshow preserves_self_getTrackbarPos : frame.

Ltac frame_step :=
  first [ solve [ auto with frame ]
        | apply preserves_self_if
        | apply preserves_self_bind; [| intros ? ] ].

Section Properties.

Variable cvtColor : Image3 → ColorConversionCode → Mat.

Lemma updateButton_self : preserves_self updateButton.
Proof. unfold updateButton. repeat frame_step. Qed.

Lemma thresholdImage_self : preserves_self (thresholdImage cvtColor).
Proof.
  unfold thresholdImage. repeat frame_step.
  all: repeat case_match; auto with frame.
Qed.

(** The three ways a call of [thresholdImage] can end, each fixed by the
    attributes alone: an exception before anything is shown, an exception
    after the converted frame is shown, or both frames shown. *)
Lemma thresholdImage_cases (s : ColorThreshold) :
  (∃ e, ∀ g, thresholdImage cvtColor (mkWorld s g) = Raise e (mkWorld s g)) ∨
  (∃ e c, ∀ g, thresholdImage cvtColor (mkWorld s g)
               = Raise e (mkWorld s (imshow IM_WIN (ShowMat c) g))) ∨
  (∃ c m, ∀ g, thresholdImage cvtColor (mkWorld s g)
               = Ok tt (mkWorld s (imshow THRESH_WIN (ShowMat (Mat1 m))
                                     (imshow IM_WIN (ShowMat c) g)))).
Proof.
  unfold thresholdImage, mbind, M_bind, get_self, py_getitem, dict_getitem,
    get_img, cv_imshow, mret, M_ret, raise, mbind, M_bind, get_self.
  simpl.
  repeat (case_match; simpl);
    first [ left; eexists; intros g; reflexivity
          | right; left; do 2 eexists; intros g; reflexivity
          | right; right; do 2 eexists; intros g; reflexivity ].
Qed.


(** *** The index of the colour space *)

Lemma self_after_assign {A} (f : ColorThreshold → ColorThreshold) (m : M A) w :
  preserves_self m →
  self (world_of ((assign f ≫= λ _, m) w)) = f (self w).
Proof. intros Hm. unfold mbind, M_bind, assign. by rewrite Hm. Qed.

Lemma preserves_self_image_refresh :
  preserves_self
    (s ← get_self;
     if bool_decide (mode s = "image") then thresholdImage cvtColor else mret tt).
Proof.
  apply preserves_self_bind; [auto with frame | intros s].
  apply preserves_self_if; [apply thresholdImage_self | auto with frame].
Qed.

Lemma onMouse_colorSpaceIdx ev x y flags data w :
  colorSpaceIdx (self (world_of (onMouse cvtColor ev x y flags data w)))
  = if bool_decide (ev = EVENT_LBUTTONDOWN)
    then (colorSpaceIdx (self w) + 1) `mod` Z.of_nat (length COLOR_SPACES)
    else if bool_decide (ev = EVENT_RBUTTONDOWN)
         then (colorSpaceIdx (self w) - 1) `mod` Z.of_nat (length COLOR_SPACES)
         else colorSpaceIdx (self w).
Proof.
  unfold onMouse.
  destruct (bool_decide (ev = EVENT_LBUTTONDOWN)) eqn:EL;
    destruct (bool_decide (ev = EVENT_RBUTTONDOWN)) eqn:ER; simpl; try done.
  all: change ((get_self ≫= ?k) w) with (k (self w) w); cbv beta.
  all: rewrite self_after_assign; [done |].
  all: apply preserves_self_bind;
    [apply updateButton_self | intros _; apply preserves_self_image_refresh].
Qed.

Lemma onMouse_in_range ev x y flags data w :
  0 ≤ colorSpaceIdx (self w) < Z.of_nat (length COLOR_SPACES) →
  0 ≤ colorSpaceIdx (self (world_of (onMouse cvtColor ev x y flags data w)))
    < Z.of_nat (length COLOR_SPACES).
Proof.
  intros Hidx. rewrite onMouse_colorSpaceIdx.
  repeat case_bool_decide; try done; by apply Z.mod_pos_bound.
Qed.

Lemma deliver_cons ev events w :
  deliver cvtColor (ev :: events) w
  = deliver cvtColor events (world_of (onMouse cvtColor ev 0 0 0 0 w)).
Proof. done. Qed.

Lemma deliver_in_range events w :
  0 ≤ colorSpaceIdx (self w) < Z.of_nat (length COLOR_SPACES) →
  0 ≤ colorSpaceIdx (self (deliver cvtColor events w)) < Z.of_nat (length COLOR_SPACES).
Proof.
  revert w. induction events as [| ev events IH]; intros w Hidx; [done |].
  rewrite deliver_cons. apply IH. by apply onMouse_in_range.
Qed.

Lemma deliver_replicate ev (d : Z) (n : nat) w :
  (∀ w, colorSpaceIdx (self (world_of (onMouse cvtColor ev 0 0 0 0 w)))
        = (colorSpaceIdx (self w) + d) `mod` Z.of_nat (length COLOR_SPACES)) →
  0 ≤ colorSpaceIdx (self w) < Z.of_nat (length COLOR_SPACES) →
  colorSpaceIdx (self (deliver cvtColor (replicate n ev) w))
  = (colorSpaceIdx (self w) + Z.of_nat n * d) `mod` Z.of_nat (length COLOR_SPACES).
Proof.
  intros Hstep. revert w. induction n as [| n IH]; intros w Hidx.
  - simpl. rewrite Z.add_0_r. symmetry. by apply Z.mod_small.
  - simpl replicate. rewrite deliver_cons, IH.
    + rewrite Hstep, Zplus_mod_idemp_l. f_equal. lia.
    + rewrite Hstep. by apply Z.mod_pos_bound.
Qed.


(** C3: a left click moves the colour space index to (index + 1) mod 7 and
    a right click to (index - 1) mod 7, both in [0, 7); from an index in
    range, seven left clicks, and likewise seven right clicks, bring the
    index back to where it started, and a right click at index 0 gives
    6, the last index. *)
Theorem C3_cycle_wraps (w : World) :
  0 ≤ colorSpaceIdx (self w) < Z.of_nat (length COLOR_SPACES) →
  let idx := colorSpaceIdx (self w) in
  let n := length COLOR_SPACES in
  let click ev := world_of (onMouse cvtColor ev 0 0 0 0 w) in
  colorSpaceIdx (self (click EVENT_LBUTTONDOWN)) = (idx + 1) `mod` Z.of_nat n
  ∧ colorSpaceIdx (self (click EVENT_RBUTTONDOWN)) = (idx + -1) `mod` Z.of_nat n
  ∧ 0 ≤ colorSpaceIdx (self (click EVENT_LBUTTONDOWN)) < Z.of_nat n
  ∧ 0 ≤ colorSpaceIdx (self (click EVENT_RBUTTONDOWN)) < Z.of_nat n
  ∧ colorSpaceIdx (self (deliver cvtColor (replicate n EVENT_LBUTTONDOWN) w)) = idx
  ∧ colorSpaceIdx (self (deliver cvtColor (replicate n EVENT_RBUTTONDOWN) w)) = idx
  ∧ (idx = 0 → colorSpaceIdx (self (click EVENT_RBUTTONDOWN)) = Z.of_nat n - 1).
Proof.
  intros Hidx idx n click.
  assert (HL : ∀ w, colorSpaceIdx (self (world_of (onMouse cvtColor EVENT_LBUTTONDOWN 0 0 0 0 w)))
                    = (colorSpaceIdx (self w) + 1) `mod` Z.of_nat (length COLOR_SPACES))
    by (intros w'; by rewrite onMouse_colorSpaceIdx).
  assert (HR : ∀ w, colorSpaceIdx (self (world_of (onMouse cvtColor EVENT_RBUTTONDOWN 0 0 0 0 w)))
                    = (colorSpaceIdx (self w) + -1) `mod` Z.of_nat (length COLOR_SPACES))
    by (intros w'; by rewrite onMouse_colorSpaceIdx).
  subst click. cbv beta.
  split; [apply HL |]. split; [apply HR |].
  split; [by apply onMouse_in_range |]. split; [by apply onMouse_in_range |].
  split; [| split].
  - rewrite (deliver_replicate _ 1) by done.
    fold idx. subst n.
    replace (idx + Z.of_nat (length COLOR_SPACES) * 1)
      with (idx + 1 * Z.of_nat (length COLOR_SPACES)) by lia.
    rewrite Z_mod_plus_full. by apply Z.mod_small.
  - rewrite (deliver_replicate _ (-1)) by done.
    fold idx. subst n.
    replace (idx + Z.of_nat (length COLOR_SPACES) * -1)
      with (idx + (-1) * Z.of_nat (length COLOR_SPACES)) by lia.
    rewrite Z_mod_plus_full. by apply Z.mod_small.
  - intros H0. rewrite HR. fold idx. rewrite H0. done.
Qed.

(** C4: the list of colour spaces has exactly seven entries, and from the
    index 0 set by the constructor, after any finite list of mouse events
    delivered to [onMouse] the colour space index lies in [0, 7). *)
Theorem C4_index_in_range (mode : string) (source : Source) (g : HighGUI)
    (events : list Z) :
  length COLOR_SPACES = 7%nat
  ∧ colorSpaceIdx (self (world_of (init mode source g))) = 0
  ∧ 0 ≤ colorSpaceIdx (self (deliver cvtColor events (world_of (init mode source g)))) < 7.
Proof.
  split; [done |].
  assert (H0 : colorSpaceIdx (self (world_of (init mode source g))) = 0).
  { unfold init. by rewrite updateButton_self. }
  split; [done |].
  change 7 with (Z.of_nat (length COLOR_SPACES)).
  apply deliver_in_range. rewrite H0. done.
Qed.


(** *** The trackbar callback *)

Lemma slider_positions_imshow winname s g :
  slider_positions (imshow winname s g) = slider_positions g.
Proof. unfold slider_positions. simpl. by rewrite !getTrackbarPos_imshow. Qed.

Lemma thresholdImage_sliders w :
  slider_positions (gui (world_of (thresholdImage cvtColor w))) = slider_positions (gui w).
Proof.
  destruct w as [s g].
  destruct (thresholdImage_cases s) as [(e & H) | [(e & c & H) | (c & m & H)]];
    rewrite H; simpl; by rewrite ?slider_positions_imshow.
Qed.

(** The attributes after the six assignments of [onTrackbar]. *)
Lemma onTrackbar_eq val w :
  let pos name := getTrackbarPos name CTRL_WIN (gui w) in
  let s' := set_ch2HighVal (pos "Ch2 High") (set_ch2LowVal (pos "Ch2 Low")
           (set_ch1HighVal (pos "Ch1 High") (set_ch1LowVal (pos "Ch1 Low")
           (set_ch0HighVal (pos "Ch0 High") (set_ch0LowVal (pos "Ch0 Low") (self w)))))) in
  onTrackbar cvtColor val w
  = if bool_decide (mode (self w) = "image")
    then thresholdImage cvtColor (mkWorld s' (gui w))
    else Ok tt (mkWorld s' (gui w)).
Proof.
  intros pos s'. subst pos s'.
  unfold onTrackbar, mbind, M_bind, cv_getTrackbarPos, assign, get_self, mret, M_ret.
  simpl. by destruct (bool_decide (mode (self w) = "image")).
Qed.

(** C7 (as the code has it): [onTrackbar] validates nothing and rejects
    nothing.  Whatever value the callback receives and whatever the slider
    positions are, it overwrites the six bounds with the positions as
    read, unclamped; outside image mode it then returns normally, in image
    mode it goes on to threshold the image with the new bounds. *)
Theorem C7_onTrackbar_stores_unchecked (val : Z) (w : World) :
  let pos name := getTrackbarPos name CTRL_WIN (gui w) in
  let s' := mkColorThreshold (mode (self w)) (source (self w)) (colorSpaceIdx (self w))
              (pos "Ch0 Low") (pos "Ch0 High") (pos "Ch1 Low") (pos "Ch1 High")
              (pos "Ch2 Low") (pos "Ch2 High") (img (self w)) in
  onTrackbar cvtColor val w
  = if bool_decide (mode (self w) = "image")
    then thresholdImage cvtColor (mkWorld s' (gui w))
    else Ok tt (mkWorld s' (gui w)).
Proof. intros pos s'. by rewrite onTrackbar_eq. Qed.

(** C10: after any call of [onTrackbar], whatever value it was called
    with, each of the six stored bounds equals the position of its slider,
    and the slider positions are as before the call. *)
Theorem C10_onTrackbar_overwrites_all (val : Z) (w : World) :
  let w' := world_of (onTrackbar cvtColor val w) in
  bounds (self w') = slider_positions (gui w)
  ∧ slider_positions (gui w') = slider_positions (gui w)
  ∧ bounds (self w') = slider_positions (gui w').
Proof.
  intros w'.
  assert (H1 : bounds (self w') = slider_positions (gui w)).
  { subst w'. rewrite onTrackbar_eq. cbv zeta.
    case_bool_decide; [rewrite thresholdImage_self |]; reflexivity. }
  assert (H2 : slider_positions (gui w') = slider_positions (gui w)).
  { subst w'. rewrite onTrackbar_eq. cbv zeta.
    case_bool_decide; [rewrite thresholdImage_sliders |]; reflexivity. }
  by rewrite H2.
Qed.

(** C9: a call of [thresholdImage] leaves every attribute of the object as
    it was, in particular the colour space index and the six bounds, also
    when it raises; and calling it again in the world it produced gives the
    same result and the same world: nothing accumulates. *)
Theorem C9_thresholdImage_pure (w : World) :
  let r := thresholdImage cvtColor w in
  self (world_of r) = self w
  ∧ colorSpaceIdx (self (world_of r)) = colorSpaceIdx (self w)
  ∧ bounds (self (world_of r)) = bounds (self w)
  ∧ thresholdImage cvtColor (world_of r) = r.
Proof.
  intros r.
  assert (Hself : self (world_of r) = self w) by apply thresholdImage_self.
  rewrite Hself. repeat split.
  subst r. clear Hself. destruct w as [s g].
  destruct (thresholdImage_cases s) as [(e & H) | [(e & c & H) | (c & m & H)]];
    rewrite (H g); simpl; rewrite H.
  - done.
  - by rewrite imshow_imshow.
  - by rewrite imshow_twice_two.
Qed.


(** *** The mask *)

(** The mask of a 3-channel frame, pixel by pixel. *)
Lemma and3_pixel_at (px : Image3) lo0 hi0 lo1 hi1 lo2 hi2 i j :
  let p0 := inRange (Mat1 (map (map (λ p : Pixel, p.1.1)) px)) lo0 hi0 in
  let p1 := inRange (Mat1 (map (map (λ p : Pixel, p.1.2)) px)) lo1 hi1 in
  let p2 := inRange (Mat1 (map (map (λ p : Pixel, p.2)) px)) lo2 hi2 in
  pixel_at (bitwise_and (bitwise_and p0 p1) p2) i j = Some 255
  ↔ pixel_at p0 i j = Some 255 ∧ pixel_at p1 i j = Some 255 ∧ pixel_at p2 i j = Some 255.
Proof.
  intros p0 p1 p2. subst p0 p1 p2.
  rewrite !inRange_Mat1_map, !bitwise_and_map_same, !pixel_at_map.
  destruct (px !! i ≫= (.!! j)) as [[[c0 c1] c2] |]; simpl.
  - pose proof (inRange_px_cases c0 lo0 hi0) as H0.
    pose proof (inRange_px_cases c1 lo1 hi1) as H1.
    pose proof (inRange_px_cases c2 lo2 hi2) as H2.
    pose proof (land_inRange_cases _ _ H0 H1) as H01.
    split.
    + intros [= H]. apply land_inRange_255 in H as [Ha Hc]; [| done ..].
      apply land_inRange_255 in Ha as [Ha Hb]; [| done ..].
      by rewrite Ha, Hb, Hc.
    + intros ([= Ha] & [= Hb] & [= Hc]). by rewrite Ha, Hb, Hc.
  - split; [discriminate | intros [? _]; discriminate].
Qed.

(** The run of [thresholdImage] on a frame whose converted form has three
    channels. *)
Lemma thresholdImage_three_channels (s : ColorThreshold) (g : HighGUI) (im px : Image3) :
  img s = ImgFrame im →
  0 ≤ colorSpaceIdx s < 7 →
  colorSpaceIdx s ≠ 1 →
  (colorSpaceIdx s = 0 → px = im) →
  (∀ name code, py_index CV_COLOR_CODES (colorSpaceIdx s) = Some (name, Some code) →
                cvtColor im code = Mat3 px) →
  thresholdImage cvtColor (mkWorld s g)
  = Ok tt (mkWorld s
       (imshow THRESH_WIN
          (ShowMat (Mat1
             (bitwise_and
                (bitwise_and
                   (inRange (Mat1 (map (map (λ p : Pixel, p.1.1)) px)) (ch0LowVal s) (ch0HighVal s))
                   (inRange (Mat1 (map (map (λ p : Pixel, p.1.2)) px)) (ch1LowVal s) (ch1HighVal s)))
                (inRange (Mat1 (map (map (λ p : Pixel, p.2)) px)) (ch2LowVal s) (ch2HighVal s)))))
          (imshow IM_WIN (ShowMat (Mat3 px)) g))).
Proof.
  intros Him Hidx Hng H0 Hcv.
  assert (Hcases : colorSpaceIdx s = 0 ∨ colorSpaceIdx s = 2 ∨ colorSpaceIdx s = 3
                   ∨ colorSpaceIdx s = 4 ∨ colorSpaceIdx s = 5 ∨ colorSpaceIdx s = 6) by lia.
  unfold thresholdImage, mbind, M_bind, get_self, py_getitem, dict_getitem,
    get_img, cv_imshow, mret, M_ret, raise, mbind, M_bind, get_self.
  cbn [self gui].
  destruct Hcases as [E | [E | [E | [E | [E | E]]]]]; rewrite E in *; simpl; rewrite Him.
  - by rewrite H0.
  - by rewrite (Hcv "HSV" COLOR_BGR2HSV).
  - by rewrite (Hcv "Lab" COLOR_BGR2Lab).
  - by rewrite (Hcv "Luv" COLOR_BGR2Luv).
  - by rewrite (Hcv "YCrCb" COLOR_BGR2YCrCb).
  - by rewrite (Hcv "YUV" COLOR_BGR2YUV).
Qed.

(** C2: in a colour space other than GRAY whose converted frame has three
    channels, [thresholdImage] returns normally and shows the converted
    frame: the stored frame itself in BGR, its conversion with the code of
    the colour space otherwise.  The mask it shows is the element-wise AND
    of the three planes obtained by the range test of the three channels of
    that frame against the three pairs of bounds; a pixel of the mask is 255
    exactly when it is 255 in each of the three planes. *)
Theorem C2_mask_is_and_of_planes (w : World) (im : Image3) :
  img (self w) = ImgFrame im →
  0 ≤ colorSpaceIdx (self w) < 7 →
  colorSpaceIdx (self w) ≠ 1 →
  (∀ code, code ≠ COLOR_BGR2GRAY → ∃ px, cvtColor im code = Mat3 px) →
  ∃ (px : Image3) (c0 c1 c2 : Plane),
    let s := self w in
    let w' := world_of (thresholdImage cvtColor w) in
    let p0 := inRange (Mat1 c0) (ch0LowVal s) (ch0HighVal s) in
    let p1 := inRange (Mat1 c1) (ch1LowVal s) (ch1HighVal s) in
    let p2 := inRange (Mat1 c2) (ch2LowVal s) (ch2HighVal s) in
    let mask := bitwise_and (bitwise_and p0 p1) p2 in
    converted_is cvtColor (colorSpaceIdx s) im px
    ∧ thresholdImage cvtColor w = Ok tt w'
    ∧ shown IM_WIN w' = Some (ShowMat (Mat3 px))
    ∧ split (Mat3 px) = [c0; c1; c2]
    ∧ shown THRESH_WIN w' = Some (ShowMat (Mat1 mask))
    ∧ ∀ i j, pixel_at mask i j = Some 255
             ↔ pixel_at p0 i j = Some 255 ∧ pixel_at p1 i j = Some 255
               ∧ pixel_at p2 i j = Some 255.
Proof.
  intros Him Hidx Hng H3. destruct w as [s g]. cbn [self] in *.
  assert (Hpx : ∃ px, converted_is cvtColor (colorSpaceIdx s) im px
                ∧ (colorSpaceIdx s = 0 → px = im)
                ∧ ∀ name code, py_index CV_COLOR_CODES (colorSpaceIdx s) = Some (name, Some code) →
                               cvtColor im code = Mat3 px).
  { unfold converted_is.
    assert (Hcases : colorSpaceIdx s = 0 ∨ colorSpaceIdx s = 2 ∨ colorSpaceIdx s = 3
                     ∨ colorSpaceIdx s = 4 ∨ colorSpaceIdx s = 5 ∨ colorSpaceIdx s = 6) by lia.
    destruct Hcases as [E | [E | [E | [E | [E | E]]]]]; rewrite E.
    - exists im. split; [done |]. split; [done | intros name code [=]].
    - destruct (H3 COLOR_BGR2HSV) as [px Hpx]; [done |].
      exists px. split; [by exists "HSV", COLOR_BGR2HSV |].
      split; [done | by intros name code [= <- <-]].
    - destruct (H3 COLOR_BGR2Lab) as [px Hpx]; [done |].
      exists px. split; [by exists "Lab", COLOR_BGR2Lab |].
      split; [done | by intros name code [= <- <-]].
    - destruct (H3 COLOR_BGR2Luv) as [px Hpx]; [done |].
      exists px. split; [by exists "Luv", COLOR_BGR2Luv |].
      split; [done | by intros name code [= <- <-]].
    - destruct (H3 COLOR_BGR2YCrCb) as [px Hpx]; [done |].
      exists px. split; [by exists "YCrCb", COLOR_BGR2YCrCb |].
      split; [done | by intros name code [= <- <-]].
    - destruct (H3 COLOR_BGR2YUV) as [px Hpx]; [done |].
      exists px. split; [by exists "YUV", COLOR_BGR2YUV |].
      split; [done | by intros name code [= <- <-]]. }
  destruct Hpx as (px & Hconv & Hid & Hcv).
  exists px. do 3 eexists. cbv zeta.
  rewrite (thresholdImage_three_channels s g im px) by done.
  cbn [world_of].
  split; [done |]. split; [done |].
  split; [| split; [reflexivity | split]].
  - rewrite shown_imshow_ne by done.
    apply shown_imshow.
  - apply shown_imshow.
  - apply and3_pixel_at.
Qed.


(** The run of [thresholdImage] in the GRAY colour space. *)
Lemma thresholdImage_gray (s : ColorThreshold) (g : HighGUI) (im : Image3) :
  img s = ImgFrame im →
  colorSpaceIdx s = 1 →
  thresholdImage cvtColor (mkWorld s g)
  = Ok tt (mkWorld s
       (imshow THRESH_WIN
          (ShowMat (Mat1 (inRange (cvtColor im COLOR_BGR2GRAY) (ch0LowVal s) (ch0HighVal s))))
          (imshow IM_WIN (ShowMat (cvtColor im COLOR_BGR2GRAY)) g))).
Proof.
  intros Him E.
  unfold thresholdImage, mbind, M_bind, get_self, py_getitem, dict_getitem,
    get_img, cv_imshow, mret, M_ret, raise, mbind, M_bind, get_self.
  cbn [self gui]. rewrite E. simpl. by rewrite Him.
Qed.

(** C5: in the GRAY colour space the mask shown by [thresholdImage] is the
    range test of the converted frame against the channel 0 bounds alone:
    two objects that hold the same frame and the same channel 0 bounds show
    the same mask, whatever their channel 1 and channel 2 bounds are. *)
Theorem C5_gray_ignores_other_bounds (w1 w2 : World) (im : Image3) :
  colorSpaceIdx (self w1) = 1 →
  colorSpaceIdx (self w2) = 1 →
  img (self w1) = ImgFrame im →
  img (self w2) = ImgFrame im →
  ch0LowVal (self w1) = ch0LowVal (self w2) →
  ch0HighVal (self w1) = ch0HighVal (self w2) →
  shown THRESH_WIN (world_of (thresholdImage cvtColor w1))
  = shown THRESH_WIN (world_of (thresholdImage cvtColor w2))
  ∧ shown THRESH_WIN (world_of (thresholdImage cvtColor w1))
    = Some (ShowMat (Mat1 (inRange (cvtColor im COLOR_BGR2GRAY)
                             (ch0LowVal (self w1)) (ch0HighVal (self w1))))).
Proof.
  intros E1 E2 Him1 Him2 Hlo Hhi.
  destruct w1 as [s1 g1], w2 as [s2 g2]. cbn [self] in *.
  rewrite (thresholdImage_gray s1 g1 im), (thresholdImage_gray s2 g2 im) by done.
  cbn [world_of]. rewrite <- Hlo, <- Hhi.
  by rewrite !shown_imshow.
Qed.

(** C6: in the first colour space, BGR, [thresholdImage] returns normally
    and the converted frame it shows is the stored frame itself, pixel
    for pixel. *)
Theorem C6_identity_converted_frame (w : World) (im : Image3) :
  colorSpaceIdx (self w) = 0 →
  img (self w) = ImgFrame im →
  thresholdImage cvtColor w = Ok tt (world_of (thresholdImage cvtColor w))
  ∧ shown IM_WIN (world_of (thresholdImage cvtColor w)) = Some (ShowMat (Mat3 im)).
Proof.
  intros E Him. destruct w as [s g]. cbn [self] in *.
  rewrite (thresholdImage_three_channels s g im im); try done.
  - cbn [world_of]. split; [done |].
    rewrite shown_imshow_ne by done.
    apply shown_imshow.
  - lia.
  - lia.
  - rewrite E. intros name code [=].
Qed.

(** C1: the range test of the code is inclusive.  With the identity colour
    space and bounds 100 and 200 on channel 0, a pixel whose channel 0 value
    is 100 and one whose value is 200 are both 255 in the mask; and with
    both channel 0 bounds at 150 a pixel of value 150 is 255 in the mask. *)
Theorem C1_range_test_includes_bounds :
  shown THRESH_WIN
    (world_of (thresholdImage cvtColor
       (sample_world "cam" 0 [100; 200; 0; 255; 0; 255]
          [[(100, 10, 10); (200, 10, 10)]])))
  = Some (ShowMat (Mat1 [[255; 255]]))
  ∧ shown THRESH_WIN
      (world_of (thresholdImage cvtColor
         (sample_world "cam" 0 [150; 150; 0; 255; 0; 255] [[(150, 10, 10)]])))
    = Some (ShowMat (Mat1 [[255]]))
  ∧ inRange_px 100 100 200 = 255
  ∧ inRange_px 200 100 200 = 255
  ∧ inRange_px 150 150 150 = 255.
Proof. repeat split; vm_compute; reflexivity. Qed.

(** C8: the main block does not fall back to camera mode when both an
    image path and a video path are given: whatever the two paths and the
    camera index are, it picks image mode with the image path.  Camera mode
    is picked only when neither path is given. *)
Theorem C8_both_paths_give_image_mode (p q : string) (c : Z) :
  main (mkArgs (Some p) (Some q) c) = ("image", SrcPath p)
  ∧ (main (mkArgs (Some p) (Some q) c)).1 ≠ "cam"
  ∧ main (mkArgs (Some "a.png") (Some "b.mp4") 0) = ("image", SrcPath "a.png")
  ∧ main (mkArgs None None c) = ("cam", SrcCam c).
Proof. repeat split. discriminate. Qed.

End Properties.

(** ** The properties at concrete inputs *)

Lemma C2_witness :
  let w := sample_world "cam" 2 [100; 200; 0; 255; 0; 255] sample_frame in
  (img (self w) = ImgFrame sample_frame
   ∧ 0 ≤ colorSpaceIdx (self w) < 7
   ∧ colorSpaceIdx (self w) ≠ 1
   ∧ ∀ code, code ≠ COLOR_BGR2GRAY → ∃ px, sample_cvtColor sample_frame code = Mat3 px)
  ∧ ∃ (px : Image3) (c0 c1 c2 : Plane),
      let s := self w in
      let w' := world_of (thresholdImage sample_cvtColor w) in
      let p0 := inRange (Mat1 c0) (ch0LowVal s) (ch0HighVal s) in
      let p1 := inRange (Mat1 c1) (ch1LowVal s) (ch1HighVal s) in
      let p2 := inRange (Mat1 c2) (ch2LowVal s) (ch2HighVal s) in
      let mask := bitwise_and (bitwise_and p0 p1) p2 in
      converted_is sample_cvtColor (colorSpaceIdx s) sample_frame px
      ∧ thresholdImage sample_cvtColor w = Ok tt w'
      ∧ shown IM_WIN w' = Some (ShowMat (Mat3 px))
      ∧ split (Mat3 px) = [c0; c1; c2]
      ∧ shown THRESH_WIN w' = Some (ShowMat (Mat1 mask))
      ∧ ∀ i j, pixel_at mask i j = Some 255
               ↔ pixel_at p0 i j = Some 255 ∧ pixel_at p1 i j = Some 255
                 ∧ pixel_at p2 i j = Some 255.
Proof.
  intros w.
  assert (H3 : ∀ code, code ≠ COLOR_BGR2GRAY →
                       ∃ px, sample_cvtColor sample_frame code = Mat3 px).
  { intros code Hcode. destruct code; [by destruct Hcode | by eexists ..]. }
  assert (Hidx : 0 ≤ colorSpaceIdx (self w) < 7) by (by vm_compute).
  assert (Hng : colorSpaceIdx (self w) ≠ 1) by (by vm_compute).
  split; [by repeat split |].
  exact (C2_mask_is_and_of_planes sample_cvtColor w sample_frame eq_refl Hidx Hng H3).
Defined.

Lemma C3_witness :
  let w := sample_world "cam" 0 [0; 255; 0; 255; 0; 255] sample_frame in
  0 ≤ colorSpaceIdx (self w) < Z.of_nat (length COLOR_SPACES)
  ∧ colorSpaceIdx (self (world_of (onMouse sample_cvtColor EVENT_RBUTTONDOWN 0 0 0 0 w))) = 6
  ∧ colorSpaceIdx (self (deliver sample_cvtColor (replicate 7 EVENT_LBUTTONDOWN) w)) = 0
  ∧ colorSpaceIdx (self (deliver sample_cvtColor (replicate 7 EVENT_RBUTTONDOWN) w)) = 0.
Proof.
  intros w.
  assert (Hidx : 0 ≤ colorSpaceIdx (self w) < Z.of_nat (length COLOR_SPACES))
    by (by vm_compute).
  split; [exact Hidx |].
  destruct (C3_cycle_wraps sample_cvtColor w Hidx) as (_ & _ & _ & _ & HL & HR & H0).
  split; [exact (H0 eq_refl) | split; [exact HL | exact HR]].
Defined.

Lemma C5_witness :
  let w1 := sample_world "cam" 1 [100; 200; 0; 255; 0; 255] sample_frame in
  let w2 := sample_world "video" 1 [100; 200; 30; 20; 255; 0] sample_frame in
  (ch1LowVal (self w1) ≠ ch1LowVal (self w2) ∧ ch2HighVal (self w1) ≠ ch2HighVal (self w2))
  ∧ shown THRESH_WIN (world_of (thresholdImage sample_cvtColor w1))
    = shown THRESH_WIN (world_of (thresholdImage sample_cvtColor w2))
  ∧ shown THRESH_WIN (world_of (thresholdImage sample_cvtColor w1))
    = Some (ShowMat (Mat1 (inRange (sample_cvtColor sample_frame COLOR_BGR2GRAY)
                             (ch0LowVal (self w1)) (ch0HighVal (self w1))))).
Proof.
  intros w1 w2. split; [by split |].
  exact (C5_gray_ignores_other_bounds sample_cvtColor w1 w2 sample_frame
           eq_refl eq_refl eq_refl eq_refl eq_refl eq_refl).
Defined.

Lemma C6_witness :
  let w := sample_world "image" 0 [100; 200; 0; 255; 0; 255] sample_frame in
  (colorSpaceIdx (self w) = 0 ∧ img (self w) = ImgFrame sample_frame)
  ∧ thresholdImage sample_cvtColor w = Ok tt (world_of (thresholdImage sample_cvtColor w))
  ∧ shown IM_WIN (world_of (thresholdImage sample_cvtColor w))
    = Some (ShowMat (Mat3 sample_frame)).
Proof.
  intros w. split; [by split |].
  exact (C6_identity_converted_frame sample_cvtColor w sample_frame eq_refl eq_refl).
Defined.

(** The callback accepts the value 300: with the sliders where the
    constructor put them the call returns normally, and with the slider
    "Ch0 Low" at 300 the bound 300 is stored as it is. *)
Lemma C7_counterexample :
  let w := sample_world "cam" 0 [0; 255; 0; 255; 0; 255] sample_frame in
  let w300 := mkWorld (self w) (createTrackbar "Ch0 Low" CTRL_WIN 300 PIXEL_MAX (gui w)) in
  ¬ (0 ≤ 300 ≤ 255)
  ∧ onTrackbar sample_cvtColor 300 w = Ok tt w
  ∧ onTrackbar sample_cvtColor 300 w300
    = Ok tt (mkWorld (set_ch0LowVal 300 (self w)) (gui w300))
  ∧ ch0LowVal (self (world_of (onTrackbar sample_cvtColor 300 w300))) = 300.
Proof.
  intros w w300. split; [lia |].
  repeat split; vm_compute; reflexivity.
Qed.


(** ** Further properties of the class *)

(** *** The trackbars of the controls window *)

Lemma getTrackbarPos_ctrl name g :
  getTrackbarPos name CTRL_WIN g = from_option pos (-1) (ctrl_trackbars g !! name).
Proof.
  unfold getTrackbarPos, ctrl_trackbars.
  destruct (g !! CTRL_WIN) as [win |]; simpl; [| by rewrite lookup_empty].
  by destruct (trackbars win !! name).
Qed.

Lemma slider_positions_ctrl g :
  slider_positions g = map (λ name, from_option pos (-1) (ctrl_trackbars g !! name)) slider_names.
Proof. unfold slider_positions, slider_names. simpl. by rewrite !getTrackbarPos_ctrl. Qed.

Lemma ctrl_trackbars_imshow winname s g :
  ctrl_trackbars (imshow winname s g) = ctrl_trackbars g.
Proof.
  unfold ctrl_trackbars. rewrite imshow_lookup.
  case_decide as E; [by subst winname | done].
Qed.

Lemma namedWindow_lookup winname g k :
  namedWindow winname g !! k
  = if decide (winname = k)
    then Some (default (mkWindow None ∅) (g !! winname))
    else g !! k.
Proof.
  unfold namedWindow. destruct (g !! winname) as [win |] eqn:E; simpl.
  - case_decide; [by subst k | done].
  - rewrite lookup_insert. by case_decide.
Qed.

Lemma createTrackbar_lookup name winname v c g k :
  createTrackbar name winname v c g !! k
  = if decide (winname = k)
    then (λ win, mkWindow (content win) (<[name := mkTrackbar v c]> (trackbars win)))
           <$> g !! winname
    else g !! k.
Proof.
  unfold createTrackbar. destruct (g !! winname) as [win |] eqn:E; simpl.
  - rewrite lookup_insert. by case_decide.
  - case_decide; [by subst k | done].
Qed.

Lemma ctrl_trackbars_createTrackbar name v c g :
  is_Some (g !! CTRL_WIN) →
  ctrl_trackbars (createTrackbar name CTRL_WIN v c g)
  = <[name := mkTrackbar v c]> (ctrl_trackbars g)
  ∧ is_Some (createTrackbar name CTRL_WIN v c g !! CTRL_WIN).
Proof.
  intros [win Hwin]. unfold ctrl_trackbars.
  rewrite createTrackbar_lookup, decide_True by done.
  rewrite Hwin. simpl. eauto.
Qed.

Lemma moveTrackbar_lookup name winname p g k :
  moveTrackbar name winname p g !! k
  = if decide (winname = k)
    then (λ win,
            match trackbars win !! name with
            | Some t =>
                mkWindow (content win)
                  (<[name := mkTrackbar (Z.max 0 (Z.min p (count t))) (count t)]>
                     (trackbars win))
            | None => win
            end) <$> g !! winname
    else g !! k.
Proof.
  unfold moveTrackbar. destruct (g !! winname) as [win |] eqn:E; simpl.
  - destruct (trackbars win !! name) as [t |]; simpl.
    + rewrite lookup_insert. by case_decide.
    + case_decide; [by subst k | done].
  - case_decide; [by subst k | done].
Qed.

Lemma ctrl_trackbars_moveTrackbar name p g t :
  ctrl_trackbars g !! name = Some t →
  ctrl_trackbars (moveTrackbar name CTRL_WIN p g)
  = <[name := mkTrackbar (Z.max 0 (Z.min p (count t))) (count t)]> (ctrl_trackbars g).
Proof.
  unfold ctrl_trackbars. rewrite moveTrackbar_lookup, decide_True by done.
  destruct (g !! CTRL_WIN) as [win |]; simpl; [| by rewrite lookup_empty].
  by intros ->.
Qed.

Lemma content_moveTrackbar name winname p g k :
  moveTrackbar name winname p g !! k ≫= content = g !! k ≫= content.
Proof.
  rewrite moveTrackbar_lookup. case_decide as E; [subst k | done].
  destruct (g !! winname) as [win |]; simpl; [| done].
  by destruct (trackbars win !! name).
Qed.

Lemma sliders_ok_ext g g' :
  ctrl_trackbars g' = ctrl_trackbars g → sliders_ok g → sliders_ok g'.
Proof. intros E H name Hname. rewrite E. by apply H. Qed.

Lemma sliders_ok_bounds g :
  sliders_ok g → Forall (λ v, PIXEL_MIN ≤ v ≤ PIXEL_MAX) (slider_positions g).
Proof.
  intros H. rewrite slider_positions_ctrl. apply Forall_forall.
  intros v Hv. apply list_elem_of_In, in_map_iff in Hv as (name & <- & Hname).
  apply list_elem_of_In in Hname.
  destruct (H name Hname) as (t & -> & _ & Hpos). done.
Qed.

Lemma py_index_COLOR_SPACES (k : Z) :
  0 ≤ k < 7 → ∃ name, py_index COLOR_SPACES k = Some name.
Proof.
  intros Hk.
  assert (Hcases : k = 0 ∨ k = 1 ∨ k = 2 ∨ k = 3 ∨ k = 4 ∨ k = 5 ∨ k = 6) by lia.
  destruct Hcases as [-> | [-> | [-> | [-> | [-> | [-> | ->]]]]]]; by eexists.
Qed.

Lemma py_index_COLOR_SPACES_None (k : Z) :
  k < -7 ∨ 7 ≤ k → py_index COLOR_SPACES k = None.
Proof.
  intros Hk. unfold py_index. change (Z.of_nat (length COLOR_SPACES)) with 7.
  case_bool_decide as E1; case_bool_decide as E2; try done; try lia.
  apply lookup_ge_None_2. change (length COLOR_SPACES) with 7%nat. lia.
Qed.

Lemma shown_ctrl_imshow_other winname s s1 s2 g :
  winname ≠ CTRL_WIN →
  shown CTRL_WIN (mkWorld s1 (imshow winname s g)) = shown CTRL_WIN (mkWorld s2 g).
Proof.
  intros Hne. unfold shown. simpl. rewrite imshow_lookup. by rewrite decide_False.
Qed.

(** *** Consistency of the object with the controls window *)

Lemma init_eq (mode : string) (source : Source) (g : HighGUI) :
  ∃ g', init mode source g
        = Ok tt (mkWorld (mkColorThreshold mode source 0 0 255 0 255 0 255 ImgMissing) g')
        ∧ g' !! CTRL_WIN ≫= content = Some (ShowButton "BGR")
        ∧ (∀ name v, (name, v) ∈ zip slider_names [0; 255; 0; 255; 0; 255] →
             ctrl_trackbars g' !! name = Some (mkTrackbar v 255)).
Proof.
  unfold init. cbn [ch0LowVal ch0HighVal ch1LowVal ch1HighVal ch2LowVal ch2HighVal].
  set (g0 := namedWindow THRESH_WIN (namedWindow CTRL_WIN g)).
  assert (H0 : is_Some (g0 !! CTRL_WIN)).
  { subst g0. rewrite !namedWindow_lookup, decide_False, decide_True by done. eauto. }
  destruct (ctrl_trackbars_createTrackbar "Ch0 Low" PIXEL_MIN PIXEL_MAX g0 H0) as [E1 H1].
  set (g1 := createTrackbar "Ch0 Low" CTRL_WIN PIXEL_MIN PIXEL_MAX g0) in *.
  destruct (ctrl_trackbars_createTrackbar "Ch0 High" PIXEL_MAX PIXEL_MAX g1 H1) as [E2 H2].
  set (g2 := createTrackbar "Ch0 High" CTRL_WIN PIXEL_MAX PIXEL_MAX g1) in *.
  destruct (ctrl_trackbars_createTrackbar "Ch1 Low" PIXEL_MIN PIXEL_MAX g2 H2) as [E3 H3].
  set (g3 := createTrackbar "Ch1 Low" CTRL_WIN PIXEL_MIN PIXEL_MAX g2) in *.
  destruct (ctrl_trackbars_createTrackbar "Ch1 High" PIXEL_MAX PIXEL_MAX g3 H3) as [E4 H4].
  set (g4 := createTrackbar "Ch1 High" CTRL_WIN PIXEL_MAX PIXEL_MAX g3) in *.
  destruct (ctrl_trackbars_createTrackbar "Ch2 Low" PIXEL_MIN PIXEL_MAX g4 H4) as [E5 H5].
  set (g5 := createTrackbar "Ch2 Low" CTRL_WIN PIXEL_MIN PIXEL_MAX g4) in *.
  destruct (ctrl_trackbars_createTrackbar "Ch2 High" PIXEL_MAX PIXEL_MAX g5 H5) as [E6 H6].
  set (g6 := createTrackbar "Ch2 High" CTRL_WIN PIXEL_MAX PIXEL_MAX g5) in *.
  exists (imshow CTRL_WIN (ShowButton "BGR") g6).
  split; [reflexivity |]. split.
  - rewrite imshow_lookup. by rewrite decide_True.
  - intros name v Hin. rewrite ctrl_trackbars_imshow, E6, E5, E4, E3, E2, E1.
    simpl in Hin.
    repeat (apply elem_of_cons in Hin as [[= -> ->] | Hin]; [by simplify_map_eq |]).
    by apply elem_of_nil in Hin.
Qed.

Lemma init_consistent (mode : string) (source : Source) (g : HighGUI) :
  consistent (world_of (init mode source g)).
Proof.
  destruct (init_eq mode source g) as (g' & -> & Hbtn & Htb). cbn [world_of].
  assert (Hpos : slider_positions g' = [0; 255; 0; 255; 0; 255]).
  { rewrite slider_positions_ctrl. simpl.
    rewrite (Htb "Ch0 Low" 0), (Htb "Ch0 High" 255), (Htb "Ch1 Low" 0),
      (Htb "Ch1 High" 255), (Htb "Ch2 Low" 0), (Htb "Ch2 High" 255);
      [done | simpl; set_solver ..]. }
  split; [done |]. split; [unfold in_sync; simpl; by rewrite Hpos |]. split.
  - intros name Hname. unfold slider_names in Hname.
    apply elem_of_cons in Hname as [-> | Hname];
      [exists (mkTrackbar 0 255); split; [apply Htb; simpl; set_solver | done] |].
    apply elem_of_cons in Hname as [-> | Hname];
      [exists (mkTrackbar 255 255); split; [apply Htb; simpl; set_solver | done] |].
    apply elem_of_cons in Hname as [-> | Hname];
      [exists (mkTrackbar 0 255); split; [apply Htb; simpl; set_solver | done] |].
    apply elem_of_cons in Hname as [-> | Hname];
      [exists (mkTrackbar 255 255); split; [apply Htb; simpl; set_solver | done] |].
    apply elem_of_cons in Hname as [-> | Hname];
      [exists (mkTrackbar 0 255); split; [apply Htb; simpl; set_solver | done] |].
    apply elem_of_cons in Hname as [-> | Hname];
      [exists (mkTrackbar 255 255); split; [apply Htb; simpl; set_solver | done] |].
    by apply elem_of_nil in Hname.
  - by exists "BGR".
Qed.

(** X1: the constructor never raises.  Whatever the GUI held before, it
    leaves an object with index 0, bounds (0, 255) on the three channels and
    no frame, six sliders at these positions with maximum 255, and the
    button showing "BGR". *)
Theorem X1_init_postcondition (mode : string) (source : Source) (g : HighGUI) :
  ∃ w, init mode source g = Ok tt w
       ∧ self w = mkColorThreshold mode source 0 0 255 0 255 0 255 ImgMissing
       ∧ slider_positions (gui w) = [0; 255; 0; 255; 0; 255]
       ∧ shown CTRL_WIN w = Some (ShowButton "BGR")
       ∧ consistent w.
Proof.
  pose proof (init_consistent mode source g) as Hc.
  destruct (init_eq mode source g) as (g' & E & Hbtn & Htb).
  rewrite E in *. cbn [world_of] in Hc.
  eexists. split; [done |]. split; [done |]. split; [| by split].
  destruct Hc as (_ & Hsync & _). by rewrite <- Hsync.
Qed.

Section MoreProperties.

Variable cvtColor : Image3 → ColorConversionCode → Mat.
Variable imread : Source → option Image3.
Variable VideoCapture : Source → option (list Image3).

(** *** What [thresholdImage] leaves alone *)

(** [thresholdImage] touches the GUI only by showing in the image window
    and the thresholded window. *)
Lemma thresholdImage_gui_frame (P : HighGUI → Prop) (w : World) :
  (∀ winname s g, winname ≠ CTRL_WIN → P g → P (imshow winname s g)) →
  P (gui w) → P (gui (world_of (thresholdImage cvtColor w))).
Proof.
  intros Hstep HP. destruct w as [s g]. simpl in HP.
  destruct (thresholdImage_cases cvtColor s) as [(e & H) | [(e & c & H) | (c & m & H)]];
    rewrite H; simpl; auto.
Qed.

Lemma thresholdImage_ctrl w :
  ctrl_trackbars (gui (world_of (thresholdImage cvtColor w))) = ctrl_trackbars (gui w)
  ∧ shown CTRL_WIN (world_of (thresholdImage cvtColor w)) = shown CTRL_WIN w.
Proof.
  apply (thresholdImage_gui_frame
           (λ g, ctrl_trackbars g = ctrl_trackbars (gui w)
                 ∧ g !! CTRL_WIN ≫= content = shown CTRL_WIN w) w); [| done].
  intros winname s g Hne [H1 H2]. split.
  - by rewrite ctrl_trackbars_imshow.
  - rewrite imshow_lookup. by rewrite decide_False.
Qed.

Lemma thresholdImage_idem w :
  thresholdImage cvtColor (world_of (thresholdImage cvtColor w)) = thresholdImage cvtColor w.
Proof.
  destruct w as [s g].
  destruct (thresholdImage_cases cvtColor s) as [(e & H) | [(e & c & H) | (c & m & H)]];
    rewrite (H g); simpl; rewrite H.
  - done.
  - by rewrite imshow_imshow.
  - by rewrite imshow_twice_two.
Qed.

Lemma thresholdImage_consistent w :
  consistent w → consistent (world_of (thresholdImage cvtColor w)).
Proof.
  intros (Hidx & Hsync & Hsl & name & Hname & Hbtn).
  destruct (thresholdImage_ctrl w) as [Htb Hshown].
  unfold consistent, in_sync, button_ok.
  rewrite thresholdImage_self, thresholdImage_sliders, Hshown.
  split; [done |]. split; [done |]. split.
  - by apply (sliders_ok_ext (gui w)).
  - exists name. by rewrite thresholdImage_self.
Qed.

(** *** The mouse callback *)

(** A click in full: the index moves, the button is redrawn with the name
    of the new colour space, and in image mode the image is thresholded
    again. *)
Lemma onMouse_click_eq (event x y flags data : Z) (w : World) :
  event = EVENT_LBUTTONDOWN ∨ event = EVENT_RBUTTONDOWN →
  ∃ name,
    let idx' := (colorSpaceIdx (self w)
                 + (if bool_decide (event = EVENT_LBUTTONDOWN) then 1 else -1)) `mod` 7 in
    let w1 := mkWorld (set_colorSpaceIdx idx' (self w))
                (imshow CTRL_WIN (ShowButton name) (gui w)) in
    py_index COLOR_SPACES idx' = Some name
    ∧ onMouse cvtColor event x y flags data w
      = if bool_decide (mode (self w) = "image")
        then thresholdImage cvtColor w1
        else Ok tt w1.
Proof.
  intros Hev.
  set (inc := if bool_decide (event = EVENT_LBUTTONDOWN) then 1 else -1).
  destruct (py_index_COLOR_SPACES ((colorSpaceIdx (self w) + inc) `mod` 7)) as [name Hname].
  { by apply Z.mod_pos_bound. }
  exists name. cbv zeta. split; [done |].
  unfold onMouse.
  replace (bool_decide (event = EVENT_LBUTTONDOWN) || bool_decide (event = EVENT_RBUTTONDOWN))
    with true
    by (destruct Hev as [-> | ->]; done).
  fold inc. change (Z.of_nat (length COLOR_SPACES)) with 7.
  unfold updateButton, mbind, M_bind, get_self, assign, py_getitem, cv_imshow, mret, M_ret.
  cbn [self gui colorSpaceIdx set_colorSpaceIdx mode].
  rewrite Hname. cbn [self gui mode set_colorSpaceIdx].
  by destruct (bool_decide (mode (self w) = "image")).
Qed.

(** Any other mouse event does nothing at all. *)
Lemma onMouse_other_eq (event x y flags data : Z) (w : World) :
  event ≠ EVENT_LBUTTONDOWN → event ≠ EVENT_RBUTTONDOWN →
  onMouse cvtColor event x y flags data w = Ok tt w.
Proof.
  intros H1 H2. unfold onMouse.
  by rewrite !bool_decide_eq_false_2.
Qed.


(** *** Callbacks and consistency *)

Lemma consistent_set_img (v : ImgAttr) (w : World) :
  consistent w → consistent (mkWorld (set_img v (self w)) (gui w)).
Proof. by intros (? & ? & ? & ?). Qed.

Lemma consistent_imshow (winname : string) (s : Shown) (w : World) :
  winname ≠ CTRL_WIN →
  consistent w → consistent (mkWorld (self w) (imshow winname s (gui w))).
Proof.
  intros Hne (Hidx & Hsync & Hsl & name & Hname & Hbtn).
  split; [done |]. split; [| split].
  - unfold in_sync. simpl. by rewrite slider_positions_imshow.
  - apply (sliders_ok_ext (gui w)); [apply ctrl_trackbars_imshow | done].
  - exists name. split; [done |].
    by rewrite (shown_ctrl_imshow_other _ _ _ (self w)).
Qed.

Lemma onMouse_consistent (event x y flags data : Z) (w : World) :
  consistent w → consistent (world_of (onMouse cvtColor event x y flags data w)).
Proof.
  intros Hw.
  destruct (decide (event = EVENT_LBUTTONDOWN ∨ event = EVENT_RBUTTONDOWN)) as [Hev | Hev].
  - destruct (onMouse_click_eq event x y flags data w Hev) as (name & Hname & ->).
    destruct Hw as (Hidx & Hsync & Hsl & _).
    match goal with
    | |- context [thresholdImage cvtColor ?w1] =>
        assert (H1 : consistent w1)
    end.
    { split; [by apply Z.mod_pos_bound |]. split; [| split].
      - unfold in_sync. simpl. by rewrite slider_positions_imshow.
      - apply (sliders_ok_ext (gui w)); [apply ctrl_trackbars_imshow | done].
      - exists name. split; [done | apply shown_imshow]. }
    destruct (bool_decide (mode (self w) = "image"));
      [by apply thresholdImage_consistent | done].
  - rewrite onMouse_other_eq; [done | naive_solver ..].
Qed.

Lemma onTrackbar_consistent (val : Z) (w : World) :
  0 ≤ colorSpaceIdx (self w) < 7 → sliders_ok (gui w) → button_ok w →
  consistent (world_of (onTrackbar cvtColor val w)).
Proof.
  intros Hidx Hsl Hbtn.
  rewrite onTrackbar_eq. cbv zeta.
  match goal with
  | |- context [thresholdImage cvtColor ?w1] => assert (H1 : consistent w1)
  end.
  { split; [done |]. split; [reflexivity |]. by split. }
  destruct (bool_decide (mode (self w) = "image"));
    [by apply thresholdImage_consistent | done].
Qed.


Lemma sliders_ok_moveTrackbar (name : string) (p : Z) (g : HighGUI) :
  sliders_ok g → sliders_ok (moveTrackbar name CTRL_WIN p g).
Proof.
  intros Hsl.
  destruct (ctrl_trackbars g !! name) as [t |] eqn:Ht.
  - intros name' Hname'. rewrite (ctrl_trackbars_moveTrackbar name p g t Ht).
    destruct (decide (name = name')) as [<- | Hne].
    + rewrite lookup_insert_eq. eexists. split; [done |]. simpl.
      destruct (Hsl name Hname') as (t' & Ht' & Hcount & Hpos).
      rewrite Ht in Ht'. injection Ht' as <-.
      rewrite Hcount. unfold PIXEL_MIN, PIXEL_MAX. lia.
    + rewrite lookup_insert_ne by done. by apply Hsl.
  - apply (sliders_ok_ext g); [| done].
    unfold ctrl_trackbars in *. rewrite moveTrackbar_lookup, decide_True by done.
    destruct (g !! CTRL_WIN) as [win |]; simpl in *; [| done].
    by rewrite Ht.
Qed.

Lemma dispatch_consistent (e : GuiEvent) (w : World) :
  consistent w → consistent (dispatch cvtColor w e).
Proof.
  intros Hw. destruct e as [event x y flags | name p]; simpl.
  - by apply onMouse_consistent.
  - destruct (gui w !! CTRL_WIN ≫= _); [| done].
    destruct Hw as (Hidx & Hsync & Hsl & btn & Hbtn & Hshown).
    apply onTrackbar_consistent; [done | by apply sliders_ok_moveTrackbar |].
    exists btn. split; [done |]. unfold shown in *. simpl.
    by rewrite content_moveTrackbar.
Qed.

Lemma pump_consistent (evs : list GuiEvent) (w : World) :
  consistent w → consistent (pump cvtColor evs w).
Proof.
  revert w. induction evs as [| e evs IH]; intros w Hw; [done |].
  simpl. apply IH. by apply dispatch_consistent.
Qed.

Lemma capture_loop_consistent (frames : list Image3) (polls : list Poll) (w : World) :
  consistent w → consistent (final_world (capture_loop cvtColor frames polls w)).
Proof.
  revert polls w. induction frames as [| frame frames IH]; intros polls w Hw.
  - simpl. by apply consistent_set_img.
  - cbn [capture_loop].
    set (w1 := pump cvtColor _ _).
    assert (H1 : consistent w1) by (by apply pump_consistent, consistent_set_img).
    destruct (bool_decide (key (next_poll polls).1 = ord_q)); [done |].
    unfold mbind, M_bind, get_img, get_self, cv_imshow, mbind, M_bind, mret, M_ret, raise.
    destruct (img (self w1)) as [| | im]; [done | done |].
    set (w2 := mkWorld (self w1) (imshow IM_WIN (ShowMat (Mat3 im)) (gui w1))).
    assert (H2 : consistent w2) by (by apply consistent_imshow).
    pose proof (thresholdImage_consistent w2 H2) as H3.
    destruct (thresholdImage cvtColor w2) as [[] w3 | e w3]; simpl in *; [by apply IH | done].
Qed.

Lemma wait_for_key_consistent (polls : list Poll) (w : World) :
  consistent w → consistent (final_world (wait_for_key cvtColor polls w)).
Proof.
  revert w. induction polls as [| p polls IH]; intros w Hw; [done |].
  simpl. assert (H1 := pump_consistent (events p) w Hw).
  destruct (bool_decide (key p = -1)); [by apply IH | done].
Qed.

Lemma start_consistent (polls : list Poll) (w : World) :
  consistent w →
  consistent (final_world (start cvtColor imread VideoCapture polls w)).
Proof.
  intros Hw. unfold start.
  destruct (bool_decide (mode (self w) = "image")).
  - destruct (imread (source (self w))) as [frame |]; simpl.
    + set (w1 := mkWorld _ (imshow IM_WIN _ _)).
      assert (H1 : consistent w1).
      { apply (consistent_imshow IM_WIN _ (mkWorld (set_img (ImgFrame frame) (self w)) (gui w)));
          [done | by apply consistent_set_img]. }
      pose proof (thresholdImage_consistent w1 H1) as H2.
      destruct (thresholdImage cvtColor w1) as [[] w2 | e w2]; simpl in *; [| done].
      by apply wait_for_key_consistent.
    + by apply consistent_set_img.
  - destruct (VideoCapture (source (self w))) as [frames |]; [| done].
    by apply capture_loop_consistent.
Qed.


Lemma consistent_bounds (w : World) :
  consistent w → Forall (λ v, 0 ≤ v ≤ 255) (bounds (self w)).
Proof.
  intros (_ & Hsync & Hsl & _). rewrite Hsync. by apply sliders_ok_bounds.
Qed.

(** X2: both callbacks keep the object consistent with the controls
    window: after a mouse event or a trackbar callback the index is in
    [0, 7), the button shows the name of the current colour space, the stored
    bounds are the slider positions, and every bound lies in [0, 255]. *)
Theorem X2_callbacks_keep_consistent (event x y flags data val : Z) (w : World) :
  consistent w →
  let w1 := world_of (onMouse cvtColor event x y flags data w) in
  let w2 := world_of (onTrackbar cvtColor val w) in
  consistent w1 ∧ consistent w2
  ∧ Forall (λ v, 0 ≤ v ≤ 255) (bounds (self w1))
  ∧ Forall (λ v, 0 ≤ v ≤ 255) (bounds (self w2)).
Proof.
  intros Hw w1 w2.
  assert (H1 : consistent w1) by (by apply onMouse_consistent).
  assert (H2 : consistent w2).
  { destruct Hw as (? & ? & ? & ?). by apply onTrackbar_consistent. }
  split; [done |]. split; [done |]. split; by apply consistent_bounds.
Qed.

(** X3: the whole program, from the parsed arguments on: however [start]
    ends, by returning or by an exception, and whatever events and keys
    arrive, the final object is consistent with the controls window and its
    six bounds lie in [0, 255]. *)
Theorem X3_run_keeps_consistent (args : Args) (polls : list Poll) (g : HighGUI) :
  let w := final_world (run cvtColor imread VideoCapture args polls g) in
  consistent w ∧ Forall (λ v, 0 ≤ v ≤ 255) (bounds (self w)).
Proof.
  intros w.
  assert (Hw : consistent w).
  { subst w. unfold run.
    pose proof (init_consistent (main args).1 (main args).2 g) as Hc.
    destruct (init (main args).1 (main args).2 g) as [[] w0 | e w0]; simpl in *; [| done].
    by apply start_consistent. }
  split; [done | by apply consistent_bounds].
Qed.

(** X4: a click changes, among the attributes, only the colour space
    index, redraws the button with the name of the new colour space and
    leaves the trackbars alone; any other mouse event leaves the whole world
    as it is. *)
Theorem X4_onMouse_effect (event x y flags data : Z) (w : World) :
  let r := onMouse cvtColor event x y flags data w in
  if bool_decide (event = EVENT_LBUTTONDOWN ∨ event = EVENT_RBUTTONDOWN)
  then self (world_of r)
       = set_colorSpaceIdx
           ((colorSpaceIdx (self w)
             + (if bool_decide (event = EVENT_LBUTTONDOWN) then 1 else -1)) `mod` 7)
           (self w)
       ∧ button_ok (world_of r)
       ∧ ctrl_trackbars (gui (world_of r)) = ctrl_trackbars (gui w)
  else r = Ok tt w.
Proof.
  intros r. subst r. case_bool_decide as Hev.
  - destruct (onMouse_click_eq event x y flags data w Hev) as (name & Hname & ->).
    match goal with
    | |- context [thresholdImage cvtColor ?w0] => set (w1 := w0)
    end.
    assert (Hb : button_ok w1).
    { exists name. split; [done | apply shown_imshow]. }
    assert (Ht : ctrl_trackbars (gui w1) = ctrl_trackbars (gui w))
      by apply ctrl_trackbars_imshow.
    destruct (bool_decide (mode (self w) = "image")); [| done].
    destruct (thresholdImage_ctrl w1) as [Htb Hshown].
    rewrite thresholdImage_self, Htb.
    split; [done |]. split; [| done].
    destruct Hb as (name' & Hn & Hs). exists name'.
    by rewrite thresholdImage_self, Hshown.
  - apply onMouse_other_eq; naive_solver.
Qed.

(** X5: outside image mode the callbacks return normally and leave the
    image window and the thresholded window as they are: a change of bounds
    or of colour space shows only when the loop thresholds the next frame. *)
Theorem X5_callbacks_do_not_redraw (event x y flags data val : Z) (w : World) :
  mode (self w) ≠ "image" →
  let r1 := onMouse cvtColor event x y flags data w in
  let r2 := onTrackbar cvtColor val w in
  r1 = Ok tt (world_of r1) ∧ r2 = Ok tt (world_of r2)
  ∧ shown IM_WIN (world_of r1) = shown IM_WIN w
  ∧ shown THRESH_WIN (world_of r1) = shown THRESH_WIN w
  ∧ gui (world_of r2) = gui w.
Proof.
  intros Hmode r1 r2.
  assert (E2 : r2 = Ok tt (world_of r2) ∧ gui (world_of r2) = gui w).
  { subst r2. rewrite onTrackbar_eq. cbv zeta.
    by rewrite bool_decide_eq_false_2. }
  destruct E2 as [E2 G2].
  destruct (decide (event = EVENT_LBUTTONDOWN ∨ event = EVENT_RBUTTONDOWN)) as [Hev | Hev].
  - destruct (onMouse_click_eq event x y flags data w Hev) as (name & Hname & E1).
    subst r1. rewrite E1, bool_decide_eq_false_2 by done. cbn [world_of].
    split; [done |]. split; [done |].
    unfold shown. simpl. rewrite !imshow_lookup, !decide_False by done. done.
  - subst r1. rewrite onMouse_other_eq by naive_solver. done.
Qed.

(** X6: in image mode the display is up to date after a trackbar callback
    and after a click: thresholding again changes nothing, neither the
    result nor what the windows show. *)
Theorem X6_image_mode_redraws (event x y flags data val : Z) (w : World) :
  mode (self w) = "image" →
  event = EVENT_LBUTTONDOWN ∨ event = EVENT_RBUTTONDOWN →
  let r1 := onMouse cvtColor event x y flags data w in
  let r2 := onTrackbar cvtColor val w in
  thresholdImage cvtColor (world_of r1) = r1
  ∧ thresholdImage cvtColor (world_of r2) = r2.
Proof.
  intros Hmode Hev r1 r2. split.
  - subst r1.
    destruct (onMouse_click_eq event x y flags data w Hev) as (name & Hname & ->).
    rewrite bool_decide_eq_true_2 by done. apply thresholdImage_idem.
  - subst r2. rewrite onTrackbar_eq. cbv zeta.
    rewrite bool_decide_eq_true_2 by done. apply thresholdImage_idem.
Qed.


(** *** The mask, pixel by pixel *)

Lemma inRange_px_decide (v lowerb upperb : Z) :
  -2147483648 ≤ lowerb < 2147483648 →
  -2147483648 ≤ upperb < 2147483648 →
  inRange_px v lowerb upperb = if bool_decide (lowerb ≤ v ≤ upperb) then 255 else 0.
Proof.
  intros Hlo Hhi. unfold inRange_px. rewrite !as_int32_fit by done.
  repeat case_bool_decide; simpl; try done; lia.
Qed.

Lemma mask3_eq (s : ColorThreshold) (px : Image3) :
  bounds_fit_int32 s →
  bitwise_and
    (bitwise_and
       (inRange (Mat1 (map (map (λ p : Pixel, p.1.1)) px)) (ch0LowVal s) (ch0HighVal s))
       (inRange (Mat1 (map (map (λ p : Pixel, p.1.2)) px)) (ch1LowVal s) (ch1HighVal s)))
    (inRange (Mat1 (map (map (λ p : Pixel, p.2)) px)) (ch2LowVal s) (ch2HighVal s))
  = map (map (λ p : Pixel, if passes s p then 255 else 0)) px.
Proof.
  intros Hfit. unfold bounds_fit_int32, bounds in Hfit.
  apply Forall_cons in Hfit as [F0 Hfit]. apply Forall_cons in Hfit as [F1 Hfit].
  apply Forall_cons in Hfit as [F2 Hfit]. apply Forall_cons in Hfit as [F3 Hfit].
  apply Forall_cons in Hfit as [F4 Hfit]. apply Forall_cons in Hfit as [F5 _].
  rewrite !inRange_Mat1_map, !bitwise_and_map_same.
  apply map_ext. intros row. apply map_ext. intros [[c0 c1] c2].
  unfold passes. rewrite !inRange_px_decide by done. simpl.
  by repeat case_bool_decide.
Qed.

(** The converted frame of a colour space with three channels. *)
Lemma converted_three_channels (s : ColorThreshold) (im : Image3) :
  0 ≤ colorSpaceIdx s < 7 →
  colorSpaceIdx s ≠ 1 →
  (colorSpaceIdx s ≠ 0 → three_channels cvtColor im) →
  ∃ px, converted_is cvtColor (colorSpaceIdx s) im px
        ∧ (colorSpaceIdx s = 0 → px = im)
        ∧ ∀ name code, py_index CV_COLOR_CODES (colorSpaceIdx s) = Some (name, Some code) →
                       cvtColor im code = Mat3 px.
Proof.
  intros Hidx Hng H3. unfold converted_is.
  assert (Hcases : colorSpaceIdx s = 0 ∨ colorSpaceIdx s = 2 ∨ colorSpaceIdx s = 3
                   ∨ colorSpaceIdx s = 4 ∨ colorSpaceIdx s = 5 ∨ colorSpaceIdx s = 6) by lia.
  destruct Hcases as [E | [E | [E | [E | [E | E]]]]]; rewrite E in *;
    [| specialize (H3 ltac:(done)) ..].
  - exists im. split; [done |]. split; [done | intros name code [=]].
  - destruct (H3 COLOR_BGR2HSV) as [px Hpx]; [done |].
    exists px. split; [by exists "HSV", COLOR_BGR2HSV |].
    split; [done | by intros name code [= <- <-]].
  - destruct (H3 COLOR_BGR2Lab) as [px Hpx]; [done |].
    exists px. split; [by exists "Lab", COLOR_BGR2Lab |].
    split; [done | by intros name code [= <- <-]].
  - destruct (H3 COLOR_BGR2Luv) as [px Hpx]; [done |].
    exists px. split; [by exists "Luv", COLOR_BGR2Luv |].
    split; [done | by intros name code [= <- <-]].
  - destruct (H3 COLOR_BGR2YCrCb) as [px Hpx]; [done |].
    exists px. split; [by exists "YCrCb", COLOR_BGR2YCrCb |].
    split; [done | by intros name code [= <- <-]].
  - destruct (H3 COLOR_BGR2YUV) as [px Hpx]; [done |].
    exists px. split; [by exists "YUV", COLOR_BGR2YUV |].
    split; [done | by intros name code [= <- <-]].
Qed.

(** The run of [thresholdImage] in a colour space with three channels, with
    the mask written pixel by pixel. *)
Lemma thresholdImage_three_passes (w : World) (im : Image3) :
  img (self w) = ImgFrame im →
  0 ≤ colorSpaceIdx (self w) < 7 →
  colorSpaceIdx (self w) ≠ 1 →
  (colorSpaceIdx (self w) ≠ 0 → three_channels cvtColor im) →
  bounds_fit_int32 (self w) →
  ∃ px, converted_is cvtColor (colorSpaceIdx (self w)) im px
        ∧ thresholdImage cvtColor w
          = Ok tt (mkWorld (self w)
               (imshow THRESH_WIN
                  (ShowMat (Mat1 (map (map (λ p : Pixel,
                                              if passes (self w) p then 255 else 0)) px)))
                  (imshow IM_WIN (ShowMat (Mat3 px)) (gui w)))).
Proof.
  intros Him Hidx Hng H3 Hfit. destruct w as [s g]. cbn [self gui] in *.
  destruct (converted_three_channels s im Hidx Hng H3) as (px & Hconv & Hid & Hcv).
  exists px. split; [done |].
  rewrite (thresholdImage_three_channels cvtColor s g im px) by done.
  by rewrite mask3_eq.
Qed.

(** X7: in a colour space with three channels and with bounds that fit a
    32-bit integer, the converted frame shown is the stored frame in BGR and
    its conversion with the code of the colour space otherwise; the mask has
    the shape of the converted frame, and its value at a pixel is 255 when
    each of the three channel values lies within its bounds, both bounds
    included, and 0 otherwise. *)
Theorem X7_mask_three_channels (w : World) (im : Image3) :
  img (self w) = ImgFrame im →
  0 ≤ colorSpaceIdx (self w) < 7 →
  colorSpaceIdx (self w) ≠ 1 →
  (colorSpaceIdx (self w) ≠ 0 → three_channels cvtColor im) →
  bounds_fit_int32 (self w) →
  ∃ (px : Image3) (mask : Plane),
    let w' := world_of (thresholdImage cvtColor w) in
    converted_is cvtColor (colorSpaceIdx (self w)) im px
    ∧ shown IM_WIN w' = Some (ShowMat (Mat3 px))
    ∧ shown THRESH_WIN w' = Some (ShowMat (Mat1 mask))
    ∧ ∀ i j, pixel_at mask i j
             = (λ p : Pixel, if passes (self w) p then 255 else 0) <$> (px !! i ≫= (.!! j)).
Proof.
  intros Him Hidx Hng H3 Hfit.
  destruct (thresholdImage_three_passes w im Him Hidx Hng H3 Hfit) as (px & Hconv & E).
  exists px. eexists. cbv zeta. rewrite E. cbn [world_of].
  split; [done |]. split; [| split].
  - rewrite shown_imshow_ne by done. apply shown_imshow.
  - apply shown_imshow.
  - intros i j. apply pixel_at_map.
Qed.

(** X8: in the GRAY colour space, when the conversion gives one channel
    and the channel 0 bounds fit a 32-bit integer, the mask has the shape of
    the grey frame and is 255 where the grey value lies within the channel 0
    bounds, both included, and 0 elsewhere. *)
Theorem X8_mask_gray (w : World) (im : Image3) (gray : Plane) :
  img (self w) = ImgFrame im →
  colorSpaceIdx (self w) = 1 →
  cvtColor im COLOR_BGR2GRAY = Mat1 gray →
  -2147483648 ≤ ch0LowVal (self w) < 2147483648 →
  -2147483648 ≤ ch0HighVal (self w) < 2147483648 →
  ∃ mask : Plane,
    let w' := world_of (thresholdImage cvtColor w) in
    thresholdImage cvtColor w = Ok tt w'
    ∧ shown IM_WIN w' = Some (ShowMat (Mat1 gray))
    ∧ shown THRESH_WIN w' = Some (ShowMat (Mat1 mask))
    ∧ ∀ i j, pixel_at mask i j
             = (λ v, if bool_decide (ch0LowVal (self w) ≤ v ≤ ch0HighVal (self w))
                     then 255 else 0) <$> pixel_at gray i j.
Proof.
  intros Him E Hgray Hlo Hhi. destruct w as [s g]. cbn [self] in *.
  eexists. cbv zeta.
  rewrite (thresholdImage_gray cvtColor s g im) by done. cbn [world_of].
  rewrite Hgray.
  split; [done |]. split; [| split].
  - rewrite shown_imshow_ne by done. apply shown_imshow.
  - apply shown_imshow.
  - intros i j. simpl. rewrite pixel_at_map. unfold pixel_at.
    destruct (gray !! i ≫= (.!! j)) as [v |]; simpl; [| done].
    by rewrite inRange_px_decide.
Qed.

(** X9: with the bounds the constructor sets, (0, 255) on every channel,
    the BGR mask of a frame of 8-bit values is 255 at every pixel. *)
Theorem X9_default_bounds_pass_everything (w : World) (im : Image3) :
  img (self w) = ImgFrame im →
  colorSpaceIdx (self w) = 0 →
  bounds (self w) = [0; 255; 0; 255; 0; 255] →
  is_8bit im →
  shown THRESH_WIN (world_of (thresholdImage cvtColor w))
  = Some (ShowMat (Mat1 (map (map (λ _, 255)) im))).
Proof.
  intros Him E Hb H8.
  assert (Hfit : bounds_fit_int32 (self w)).
  { unfold bounds_fit_int32. rewrite Hb. repeat constructor; lia. }
  destruct (thresholdImage_three_passes w im Him) as (px & Hconv & ->);
    [lia | lia | done | done |].
  unfold converted_is in Hconv. rewrite bool_decide_eq_true_2 in Hconv by done.
  rewrite Hconv. cbn [world_of]. rewrite shown_imshow.
  do 3 f_equal.
  injection Hb as Hb0 Hb1 Hb2 Hb3 Hb4 Hb5.
  apply Forall_fmap_ext_1. eapply Forall_impl; [exact H8 |].
  intros row Hrow. apply Forall_fmap_ext_1. eapply Forall_impl; [exact Hrow |].
  intros [[c0 c1] c2] (H0 & H1 & H2). simpl in *.
  unfold passes. simpl. rewrite Hb0, Hb1, Hb2, Hb3, Hb4, Hb5.
  by rewrite !bool_decide_eq_true_2.
Qed.

(** X10: with bounds that fit a 32-bit integer, when on some channel the
    low bound is above the high bound, the mask of a colour space with three
    channels is 0 at every pixel of the converted frame. *)
Theorem X10_crossed_bounds_empty_mask (w : World) (im : Image3) :
  img (self w) = ImgFrame im →
  0 ≤ colorSpaceIdx (self w) < 7 →
  colorSpaceIdx (self w) ≠ 1 →
  (colorSpaceIdx (self w) ≠ 0 → three_channels cvtColor im) →
  bounds_fit_int32 (self w) →
  ch0HighVal (self w) < ch0LowVal (self w)
  ∨ ch1HighVal (self w) < ch1LowVal (self w)
  ∨ ch2HighVal (self w) < ch2LowVal (self w) →
  ∃ px : Image3,
    converted_is cvtColor (colorSpaceIdx (self w)) im px
    ∧ shown IM_WIN (world_of (thresholdImage cvtColor w)) = Some (ShowMat (Mat3 px))
    ∧ shown THRESH_WIN (world_of (thresholdImage cvtColor w))
      = Some (ShowMat (Mat1 (map (map (λ _, 0)) px))).
Proof.
  intros Him Hidx Hng H3 Hfit Hcross.
  destruct (thresholdImage_three_passes w im Him Hidx Hng H3 Hfit) as (px & Hconv & ->).
  exists px. cbn [world_of]. split; [done |]. split.
  - rewrite shown_imshow_ne by done. apply shown_imshow.
  - rewrite shown_imshow. do 3 f_equal.
    apply map_ext. intros row. apply map_ext. intros [[c0 c1] c2].
    unfold passes. simpl.
    repeat case_bool_decide; simpl; try done; lia.
Qed.

(** X11: with bounds that fit a 32-bit integer, widening the bounds never
    removes a pixel from the mask: for the same frame and the same colour
    space with three channels, a pixel that is 255 under the narrower bounds
    is 255 under the wider ones. *)
Theorem X11_mask_monotone_in_bounds (w1 w2 : World) (im : Image3) :
  img (self w1) = ImgFrame im →
  img (self w2) = ImgFrame im →
  colorSpaceIdx (self w1) = colorSpaceIdx (self w2) →
  0 ≤ colorSpaceIdx (self w1) < 7 →
  colorSpaceIdx (self w1) ≠ 1 →
  (colorSpaceIdx (self w1) ≠ 0 → three_channels cvtColor im) →
  bounds_fit_int32 (self w1) →
  bounds_fit_int32 (self w2) →
  wider (self w1) (self w2) →
  ∃ mask1 mask2 : Plane,
    shown THRESH_WIN (world_of (thresholdImage cvtColor w1)) = Some (ShowMat (Mat1 mask1))
    ∧ shown THRESH_WIN (world_of (thresholdImage cvtColor w2)) = Some (ShowMat (Mat1 mask2))
    ∧ ∀ i j, pixel_at mask2 i j = Some 255 → pixel_at mask1 i j = Some 255.
Proof.
  intros Him1 Him2 Eidx Hidx Hng H3 Hfit1 Hfit2 Hw.
  destruct w1 as [s1 g1], w2 as [s2 g2]. cbn [self] in *.
  destruct (converted_three_channels s1 im Hidx Hng H3) as (px & _ & Hid & Hcv).
  rewrite (thresholdImage_three_channels cvtColor s1 g1 im px) by done.
  rewrite (thresholdImage_three_channels cvtColor s2 g2 im px)
    by (rewrite <- ?Eidx; done).
  rewrite !mask3_eq by done. cbn [world_of]. rewrite !shown_imshow.
  do 2 eexists. split; [done |]. split; [done |].
  intros i j. rewrite !pixel_at_map.
  destruct (px !! i ≫= (.!! j)) as [[[c0 c1] c2] |]; simpl; [| done].
  destruct Hw as (? & ? & ? & ? & ? & ?).
  unfold passes. simpl.
  repeat case_bool_decide; simpl; try done; lia.
Qed.

(** *** Failures *)

(** X12: without a frame [thresholdImage] fails before anything is shown
    and changes nothing.  While the object has no attribute [img] (before
    [start]) it raises [AttributeError] in every colour space; when the
    attribute holds [None] (after a read that gave no frame) it raises
    [AttributeError] in BGR, from the copy, and the error of OpenCV in
    every other colour space, from the conversion. *)
Theorem X12_thresholdImage_without_frame (w : World) :
  img (self w) = ImgMissing ∨ img (self w) = ImgNone →
  0 ≤ colorSpaceIdx (self w) < 7 →
  thresholdImage cvtColor w
  = Raise (match img (self w) with
           | ImgNone => if bool_decide (colorSpaceIdx (self w) = 0)
                        then AttributeError else cv2_error
           | _ => AttributeError
           end) w.
Proof.
  intros Him Hidx. destruct w as [s g]. cbn [self] in *.
  assert (Hcases : colorSpaceIdx s = 0 ∨ colorSpaceIdx s = 1 ∨ colorSpaceIdx s = 2
                   ∨ colorSpaceIdx s = 3 ∨ colorSpaceIdx s = 4 ∨ colorSpaceIdx s = 5
                   ∨ colorSpaceIdx s = 6) by lia.
  unfold thresholdImage, mbind, M_bind, get_self, py_getitem, dict_getitem,
    get_img, cv_imshow, mret, M_ret, raise, mbind, M_bind, get_self.
  cbn [self gui].
  destruct Him as [Him | Him];
    destruct Hcases as [E | [E | [E | [E | [E | [E | E]]]]]];
    rewrite E; simpl; by rewrite Him.
Qed.

(** X13: with a colour space index outside [-7, 7) the three methods that
    look the name up, [updateButton], [thresholdImage] and [getValues],
    raise [IndexError] and change nothing. *)
Theorem X13_index_out_of_range (w : World) :
  colorSpaceIdx (self w) < -7 ∨ 7 ≤ colorSpaceIdx (self w) →
  updateButton w = Raise IndexError w
  ∧ thresholdImage cvtColor w = Raise IndexError w
  ∧ getValues w = Raise IndexError w.
Proof.
  intros Hidx. apply py_index_COLOR_SPACES_None in Hidx.
  unfold updateButton, thresholdImage, getValues, mbind, M_bind, get_self, py_getitem.
  by rewrite Hidx.
Qed.

(** X14: after a trackbar callback, [getValues] returns the name of the
    current colour space with the six slider positions, and changes
    nothing. *)
Theorem X14_getValues_after_onTrackbar (val : Z) (w : World) :
  0 ≤ colorSpaceIdx (self w) < 7 →
  let w' := world_of (onTrackbar cvtColor val w) in
  let pos name := getTrackbarPos name CTRL_WIN (gui w) in
  ∃ name,
    py_index COLOR_SPACES (colorSpaceIdx (self w)) = Some name
    ∧ getValues w'
      = Ok [ ("colorSpaceName", PyStr name);
             ("ch0Low", PyInt (pos "Ch0 Low"));
             ("ch0High", PyInt (pos "Ch0 High"));
             ("ch1Low", PyInt (pos "Ch1 Low"));
             ("ch1High", PyInt (pos "Ch1 High"));
             ("ch2Low", PyInt (pos "Ch2 Low"));
             ("ch2High", PyInt (pos "Ch2 High")) ] w'.
Proof.
  intros Hidx w' pos.
  destruct (py_index_COLOR_SPACES _ Hidx) as [name Hname].
  exists name. split; [done |].
  assert (Hself : self w'
                  = mkColorThreshold (mode (self w)) (source (self w)) (colorSpaceIdx (self w))
                      (pos "Ch0 Low") (pos "Ch0 High") (pos "Ch1 Low") (pos "Ch1 High")
                      (pos "Ch2 Low") (pos "Ch2 High") (img (self w))).
  { subst w'. rewrite onTrackbar_eq. cbv zeta.
    destruct (bool_decide (mode (self w) = "image")); [by rewrite thresholdImage_self | done]. }
  unfold getValues, mbind, M_bind, get_self, py_getitem, mret, M_ret.
  rewrite Hself. cbn [colorSpaceIdx ch0LowVal ch0HighVal ch1LowVal ch1HighVal
                      ch2LowVal ch2HighVal].
  by rewrite Hname.
Qed.

(** *** [start] *)

(** X15: when the source cannot be used, [start] ends with an exception
    before anything is shown and before any event is handled: in image mode
    with a file that cannot be read, and in the other modes with a capture
    that cannot be opened.  The index, the bounds and the GUI are as
    before. *)
Theorem X15_start_source_unavailable (polls : list Poll) (w : World) :
  (mode (self w) = "image" ∧ imread (source (self w)) = None)
  ∨ (mode (self w) ≠ "image" ∧ VideoCapture (source (self w)) = None) →
  ∃ e w', start cvtColor imread VideoCapture polls w = Aborted e w'
          ∧ e = (if bool_decide (mode (self w) = "image") then CvError else RuntimeError)
          ∧ gui w' = gui w
          ∧ colorSpaceIdx (self w') = colorSpaceIdx (self w)
          ∧ bounds (self w') = bounds (self w).
Proof.
  intros [[Hmode Hread] | [Hmode Hcap]]; unfold start.
  - rewrite bool_decide_eq_true_2 by done. rewrite Hread. by do 2 eexists.
  - rewrite bool_decide_eq_false_2 by done. rewrite Hcap. by do 2 eexists.
Qed.


Lemma thresholdImage_ok (w : World) (im : Image3) :
  img (self w) = ImgFrame im →
  0 ≤ colorSpaceIdx (self w) < 7 →
  (colorSpaceIdx (self w) ≠ 0 → three_channels cvtColor im) →
  ∃ w', thresholdImage cvtColor w = Ok tt w'.
Proof.
  intros Him Hidx H3.
  destruct (decide (colorSpaceIdx (self w) = 1)) as [E | Hng].
  - destruct w as [s g]. cbn [self] in *.
    rewrite (thresholdImage_gray cvtColor s g im) by done. eauto.
  - destruct w as [s g]. cbn [self] in *.
    destruct (converted_three_channels s im Hidx Hng H3) as (px & _ & Hid & Hcv).
    rewrite (thresholdImage_three_channels cvtColor s g im px) by done. eauto.
Qed.

Lemma onMouse_img (event x y flags data : Z) (w : World) :
  img (self (world_of (onMouse cvtColor event x y flags data w))) = img (self w).
Proof.
  destruct (decide (event = EVENT_LBUTTONDOWN ∨ event = EVENT_RBUTTONDOWN)) as [Hev | Hev].
  - destruct (onMouse_click_eq event x y flags data w Hev) as (name & Hname & ->).
    destruct (bool_decide (mode (self w) = "image")); [by rewrite thresholdImage_self | done].
  - rewrite onMouse_other_eq; [done | naive_solver ..].
Qed.

Lemma onTrackbar_img (val : Z) (w : World) :
  img (self (world_of (onTrackbar cvtColor val w))) = img (self w).
Proof.
  rewrite onTrackbar_eq. cbv zeta.
  destruct (bool_decide (mode (self w) = "image")); [by rewrite thresholdImage_self | done].
Qed.

Lemma pump_img (evs : list GuiEvent) (w : World) :
  img (self (pump cvtColor evs w)) = img (self w).
Proof.
  revert w. induction evs as [| e evs IH]; intros w; [done |].
  simpl. rewrite IH. destruct e as [event x y flags | name p]; simpl.
  - apply onMouse_img.
  - destruct (gui w !! CTRL_WIN ≫= _); [| done]. by rewrite onTrackbar_img.
Qed.

Lemma capture_loop_finishes (frames : list Image3) (polls : list Poll) (w : World) :
  consistent w →
  Forall (three_channels cvtColor) frames →
  ∃ w', capture_loop cvtColor frames polls w = Finished w'.
Proof.
  revert polls w. induction frames as [| frame frames IH]; intros polls w Hw H3.
  - simpl. eauto.
  - apply Forall_cons in H3 as [H3 H3s]. cbn [capture_loop].
    set (w1 := pump cvtColor _ _).
    assert (H1 : consistent w1) by (by apply pump_consistent, consistent_set_img).
    assert (Him : img (self w1) = ImgFrame frame) by (subst w1; by rewrite pump_img).
    destruct (bool_decide (key (next_poll polls).1 = ord_q)); [eauto |].
    unfold mbind, M_bind, get_img, get_self, cv_imshow, mbind, M_bind, mret, M_ret, raise.
    rewrite Him.
    set (w2 := mkWorld (self w1) (imshow IM_WIN (ShowMat (Mat3 frame)) (gui w1))).
    assert (H2 : consistent w2) by (by apply consistent_imshow).
    pose proof (thresholdImage_consistent w2 H2) as Hc3.
    destruct (thresholdImage_ok w2 frame) as [w3 E3];
      [done | by destruct H1 | done |].
    rewrite E3 in *. by apply IH.
Qed.

Lemma wait_for_key_not_aborted (polls : list Poll) (w : World) (e : StartExn) (w' : World) :
  wait_for_key cvtColor polls w ≠ Aborted e w'.
Proof.
  revert w. induction polls as [| p polls IH]; intros w; [done |].
  simpl. destruct (bool_decide (key p = -1)); [apply IH | done].
Qed.

(** X16: no exception ends the program once its source can be used.  In
    image mode, when the file can be read, and in the other modes, when the
    capture opens and every frame converts to three channels in the colour
    spaces other than GRAY, [start] never ends with an exception, whatever
    events and keys arrive: it returns, or it is still waiting for a key. *)
Theorem X16_run_does_not_raise (args : Args) (polls : list Poll) (g : HighGUI) :
  ((main args).1 = "image" ∧ is_Some (imread (main args).2))
  ∨ ((main args).1 ≠ "image"
     ∧ ∃ frames, VideoCapture (main args).2 = Some frames
                 ∧ Forall (three_channels cvtColor) frames) →
  ∀ e w', run cvtColor imread VideoCapture args polls g ≠ Aborted e w'.
Proof.
  intros Hsrc e w'. unfold run.
  pose proof (init_consistent (main args).1 (main args).2 g) as Hc.
  destruct (init_eq (main args).1 (main args).2 g) as (g' & E & _).
  rewrite E in *. cbn [world_of] in Hc. unfold start. cbn [self mode source].
  destruct Hsrc as [[Hmode [frame Hread]] | [Hmode (frames & Hcap & H3)]].
  - rewrite bool_decide_eq_true_2 by done. rewrite Hread.
    cbn [self gui set_img img_of_read].
    match goal with
    | |- context [thresholdImage cvtColor ?w0] =>
        destruct (thresholdImage_ok w0 frame) as [w1 E1]; [done | done | done |]
    end.
    rewrite E1. apply wait_for_key_not_aborted.
  - rewrite bool_decide_eq_false_2 by done. rewrite Hcap.
    match goal with
    | |- capture_loop cvtColor frames polls ?w0 ≠ _ =>
        destruct (capture_loop_finishes frames polls w0 Hc H3) as [w1 ->]
    end.
    done.
Qed.

(** X17: the key q ends the loop of [start]: the frames that follow the
    one at which q is returned by [cv2.waitKey] are never read, so they have
    no effect on the result. *)
Theorem X17_q_ends_capture_loop (frames rest : list Image3) (polls : list Poll)
    (p : Poll) (k : nat) (w : World) :
  length frames = S k →
  polls !! k = Some p →
  key p = ord_q →
  capture_loop cvtColor (frames ++ rest) polls w = capture_loop cvtColor frames polls w.
Proof.
  revert k polls w. induction frames as [| frame frames IH]; intros k polls w Hlen Hp Hq;
    [done |].
  cbn [app capture_loop].
  destruct polls as [| p0 polls]; [done |].
  cbn [next_poll fst snd].
  destruct k as [| k].
  - injection Hp as ->. by rewrite !bool_decide_eq_true_2.
  - destruct (bool_decide (key p0 = ord_q)); [done |].
    match goal with
    | |- match ?r with _ => _ end = _ => destruct r as [[] w' | e w']; [| done]
    end.
    apply (IH k); [by injection Hlen | done | done].
Qed.


Lemma set_img_back (s : ColorThreshold) (f : Image3) :
  img s = ImgFrame f → set_img (ImgFrame f) (set_img ImgNone s) = s.
Proof. destruct s. simpl. by intros ->. Qed.

(** X18: when the stream ends without the key q, the loop of [start]
    returns with no frame stored, and the windows show the last frame
    thresholded under the final bounds and colour space: thresholding the
    last frame again in the final world would change nothing. *)
Theorem X18_capture_loop_end_of_stream (frames : list Image3) (polls : list Poll)
    (f : Image3) (w : World) :
  consistent w →
  Forall (three_channels cvtColor) frames →
  last frames = Some f →
  Forall (λ p, key p ≠ ord_q) polls →
  ∃ w', capture_loop cvtColor frames polls w = Finished w'
        ∧ img (self w') = ImgNone
        ∧ let w'' := mkWorld (set_img (ImgFrame f) (self w')) (gui w') in
          thresholdImage cvtColor w'' = Ok tt w''.
Proof.
  revert polls w. induction frames as [| frame frames IH]; intros polls w Hw H3 Hlast Hq;
    [done |].
  apply Forall_cons in H3 as [H3 H3s]. cbn [capture_loop].
  assert (Hkey : key (next_poll polls).1 ≠ ord_q).
  { destruct polls as [| p0 polls]; [done |]. by apply Forall_cons in Hq as [? _]. }
  assert (Hq' : Forall (λ p, key p ≠ ord_q) (next_poll polls).2).
  { destruct polls as [| p0 polls]; [done |]. by apply Forall_cons in Hq as [_ ?]. }
  set (w1 := pump cvtColor _ _).
  assert (H1 : consistent w1) by (by apply pump_consistent, consistent_set_img).
  assert (Him : img (self w1) = ImgFrame frame) by (subst w1; by rewrite pump_img).
  rewrite bool_decide_eq_false_2 by done.
  unfold mbind, M_bind, get_img, get_self, cv_imshow, mbind, M_bind, mret, M_ret, raise.
  rewrite Him.
  set (w2 := mkWorld (self w1) (imshow IM_WIN (ShowMat (Mat3 frame)) (gui w1))).
  assert (H2 : consistent w2) by (by apply consistent_imshow).
  pose proof (thresholdImage_consistent w2 H2) as Hc3.
  pose proof (thresholdImage_idem w2) as Hidem.
  pose proof (thresholdImage_self cvtColor w2) as Hself.
  destruct (thresholdImage_ok w2 frame) as [w3 E3];
    [done | by destruct H1 | done |].
  rewrite E3 in Hc3, Hidem, Hself |- *. cbn [world_of] in Hc3, Hidem, Hself.
  destruct frames as [| frame' frames].
  - injection Hlast as <-. simpl. eexists. split; [done |]. split; [done |].
    cbn [self gui]. rewrite set_img_back by (by rewrite Hself).
    by destruct w3.
  - apply IH; try done.
Qed.

End MoreProperties.

(** ** The further properties at concrete inputs *)

Lemma sample_three_channels (im : Image3) : three_channels sample_cvtColor im.
Proof. intros code Hcode. destruct code; [by destruct Hcode | by eexists ..]. Qed.

Lemma sample_frame_8bit : is_8bit sample_frame.
Proof. unfold is_8bit, sample_frame. repeat constructor; simpl; lia. Qed.

Lemma X2_witness :
  let w := world_of (init "cam" (SrcCam 0) ∅) in
  let w1 := world_of (onMouse sample_cvtColor EVENT_RBUTTONDOWN 0 0 0 0 w) in
  let w2 := world_of (onTrackbar sample_cvtColor 5 w) in
  consistent w1 ∧ consistent w2
  ∧ Forall (λ v, 0 ≤ v ≤ 255) (bounds (self w1))
  ∧ Forall (λ v, 0 ≤ v ≤ 255) (bounds (self w2)).
Proof.
  exact (X2_callbacks_keep_consistent sample_cvtColor EVENT_RBUTTONDOWN 0 0 0 0 5
           (world_of (init "cam" (SrcCam 0) ∅))
           (init_consistent "cam" (SrcCam 0) ∅)).
Defined.

Lemma X5_witness :
  let w := sample_world "video" 3 [100; 200; 0; 255; 0; 255] sample_frame in
  let r1 := onMouse sample_cvtColor EVENT_LBUTTONDOWN 0 0 0 0 w in
  let r2 := onTrackbar sample_cvtColor 7 w in
  mode (self w) ≠ "image"
  ∧ r1 = Ok tt (world_of r1) ∧ r2 = Ok tt (world_of r2)
  ∧ shown IM_WIN (world_of r1) = shown IM_WIN w
  ∧ shown THRESH_WIN (world_of r1) = shown THRESH_WIN w
  ∧ gui (world_of r2) = gui w.
Proof.
  intros w r1 r2.
  assert (Hmode : mode (self w) ≠ "image") by discriminate.
  split; [exact Hmode |].
  exact (X5_callbacks_do_not_redraw sample_cvtColor EVENT_LBUTTONDOWN 0 0 0 0 7 w Hmode).
Defined.

Lemma X6_witness :
  let w := sample_world "image" 0 [100; 200; 0; 255; 0; 255] sample_frame in
  let r1 := onMouse sample_cvtColor EVENT_LBUTTONDOWN 0 0 0 0 w in
  let r2 := onTrackbar sample_cvtColor 7 w in
  mode (self w) = "image"
  ∧ thresholdImage sample_cvtColor (world_of r1) = r1
  ∧ thresholdImage sample_cvtColor (world_of r2) = r2.
Proof.
  intros w r1 r2. split; [reflexivity |].
  exact (X6_image_mode_redraws sample_cvtColor EVENT_LBUTTONDOWN 0 0 0 0 7 w
           eq_refl (or_introl eq_refl)).
Defined.

Lemma X7_witness :
  let w := sample_world "cam" 2 [100; 200; 0; 255; 0; 255] sample_frame in
  bounds_fit_int32 (self w)
  ∧ ∃ (px : Image3) (mask : Plane),
      let w' := world_of (thresholdImage sample_cvtColor w) in
      converted_is sample_cvtColor (colorSpaceIdx (self w)) sample_frame px
      ∧ shown IM_WIN w' = Some (ShowMat (Mat3 px))
      ∧ shown THRESH_WIN w' = Some (ShowMat (Mat1 mask))
      ∧ ∀ i j, pixel_at mask i j
               = (λ p : Pixel, if passes (self w) p then 255 else 0) <$> (px !! i ≫= (.!! j)).
Proof.
  intros w.
  assert (Hidx : 0 ≤ colorSpaceIdx (self w) < 7) by (by vm_compute).
  assert (Hng : colorSpaceIdx (self w) ≠ 1) by (by vm_compute).
  assert (Hfit : bounds_fit_int32 (self w)).
  { unfold bounds_fit_int32, bounds, w. simpl.
    repeat apply Forall_cons_2; try apply Forall_nil_2; lia. }
  split; [exact Hfit |].
  exact (X7_mask_three_channels sample_cvtColor w sample_frame eq_refl Hidx Hng
           (λ _, sample_three_channels sample_frame) Hfit).
Defined.

Lemma X8_witness :
  let w := sample_world "cam" 1 [100; 200; 0; 255; 0; 255] sample_frame in
  let gray := map (map (λ px : Pixel, px.1.1)) sample_frame in
  ∃ mask : Plane,
    let w' := world_of (thresholdImage sample_cvtColor w) in
    thresholdImage sample_cvtColor w = Ok tt w'
    ∧ shown IM_WIN w' = Some (ShowMat (Mat1 gray))
    ∧ shown THRESH_WIN w' = Some (ShowMat (Mat1 mask))
    ∧ ∀ i j, pixel_at mask i j
             = (λ v, if bool_decide (ch0LowVal (self w) ≤ v ≤ ch0HighVal (self w))
                     then 255 else 0) <$> pixel_at gray i j.
Proof.
  intros w gray.
  assert (Hlo : -2147483648 ≤ ch0LowVal (self w) < 2147483648) by (by vm_compute).
  assert (Hhi : -2147483648 ≤ ch0HighVal (self w) < 2147483648) by (by vm_compute).
  exact (X8_mask_gray sample_cvtColor w sample_frame gray eq_refl eq_refl eq_refl Hlo Hhi).
Defined.

Lemma X9_witness :
  let w := sample_world "cam" 0 [0; 255; 0; 255; 0; 255] sample_frame in
  is_8bit sample_frame
  ∧ shown THRESH_WIN (world_of (thresholdImage sample_cvtColor w))
    = Some (ShowMat (Mat1 (map (map (λ _, 255)) sample_frame))).
Proof.
  intros w. split; [exact sample_frame_8bit |].
  exact (X9_default_bounds_pass_everything sample_cvtColor w sample_frame
           eq_refl eq_refl eq_refl sample_frame_8bit).
Defined.

Lemma X10_witness :
  let w := sample_world "cam" 0 [0; 255; 200; 100; 0; 255] sample_frame in
  ch1HighVal (self w) < ch1LowVal (self w)
  ∧ ∃ px : Image3,
      converted_is sample_cvtColor (colorSpaceIdx (self w)) sample_frame px
      ∧ shown IM_WIN (world_of (thresholdImage sample_cvtColor w)) = Some (ShowMat (Mat3 px))
      ∧ shown THRESH_WIN (world_of (thresholdImage sample_cvtColor w))
        = Some (ShowMat (Mat1 (map (map (λ _, 0)) px))).
Proof.
  intros w.
  assert (Hidx : 0 ≤ colorSpaceIdx (self w) < 7) by (by vm_compute).
  assert (Hng : colorSpaceIdx (self w) ≠ 1) by (by vm_compute).
  assert (Hcross : ch1HighVal (self w) < ch1LowVal (self w)) by (by vm_compute).
  assert (Hfit : bounds_fit_int32 (self w)).
  { unfold bounds_fit_int32, bounds, w. simpl.
    repeat apply Forall_cons_2; try apply Forall_nil_2; lia. }
  split; [exact Hcross |].
  exact (X10_crossed_bounds_empty_mask sample_cvtColor w sample_frame eq_refl Hidx Hng
           (λ _, sample_three_channels sample_frame) Hfit (or_intror (or_introl Hcross))).
Defined.

Lemma X11_witness :
  let w1 := sample_world "cam" 4 [50; 220; 0; 255; 0; 255] sample_frame in
  let w2 := sample_world "cam" 4 [100; 200; 5; 250; 0; 255] sample_frame in
  wider (self w1) (self w2)
  ∧ ∃ mask1 mask2 : Plane,
      shown THRESH_WIN (world_of (thresholdImage sample_cvtColor w1))
      = Some (ShowMat (Mat1 mask1))
      ∧ shown THRESH_WIN (world_of (thresholdImage sample_cvtColor w2))
        = Some (ShowMat (Mat1 mask2))
      ∧ ∀ i j, pixel_at mask2 i j = Some 255 → pixel_at mask1 i j = Some 255.
Proof.
  intros w1 w2.
  assert (Hidx : 0 ≤ colorSpaceIdx (self w1) < 7) by (by vm_compute).
  assert (Hng : colorSpaceIdx (self w1) ≠ 1) by (by vm_compute).
  assert (Hw : wider (self w1) (self w2)) by (by vm_compute).
  assert (Hfit1 : bounds_fit_int32 (self w1)).
  { unfold bounds_fit_int32, bounds, w1. simpl.
    repeat apply Forall_cons_2; try apply Forall_nil_2; lia. }
  assert (Hfit2 : bounds_fit_int32 (self w2)).
  { unfold bounds_fit_int32, bounds, w2. simpl.
    repeat apply Forall_cons_2; try apply Forall_nil_2; lia. }
  split; [exact Hw |].
  exact (X11_mask_monotone_in_bounds sample_cvtColor w1 w2 sample_frame
           eq_refl eq_refl eq_refl Hidx Hng
           (λ _, sample_three_channels sample_frame) Hfit1 Hfit2 Hw).
Defined.

Lemma X12_witness :
  let w := world_of (init "image" (SrcPath "frame.png") ∅) in
  let w' := mkWorld (set_colorSpaceIdx 2 (set_img ImgNone (self w))) (gui w) in
  (img (self w) = ImgMissing ∧ img (self w') = ImgNone)
  ∧ thresholdImage sample_cvtColor w = Raise AttributeError w
  ∧ thresholdImage sample_cvtColor w' = Raise cv2_error w'.
Proof.
  intros w w'.
  assert (Hidx : 0 ≤ colorSpaceIdx (self w) < 7) by (by vm_compute).
  assert (Hidx' : 0 ≤ colorSpaceIdx (self w') < 7) by (by vm_compute).
  split; [by split |]. split.
  - exact (X12_thresholdImage_without_frame sample_cvtColor w (or_introl eq_refl) Hidx).
  - exact (X12_thresholdImage_without_frame sample_cvtColor w' (or_intror eq_refl) Hidx').
Defined.

Lemma X13_witness :
  let w := mkWorld (mkColorThreshold "cam" (SrcCam 0) 7 0 255 0 255 0 255 ImgMissing) sample_gui in
  updateButton w = Raise IndexError w
  ∧ thresholdImage sample_cvtColor w = Raise IndexError w
  ∧ getValues w = Raise IndexError w.
Proof.
  intros w.
  assert (Hidx : colorSpaceIdx (self w) < -7 ∨ 7 ≤ colorSpaceIdx (self w))
    by (right; by vm_compute).
  exact (X13_index_out_of_range sample_cvtColor w Hidx).
Defined.

Lemma X14_witness :
  let w := sample_world "cam" 2 [100; 200; 0; 255; 0; 255] sample_frame in
  let w' := world_of (onTrackbar sample_cvtColor 9 w) in
  let pos name := getTrackbarPos name CTRL_WIN (gui w) in
  ∃ name,
    py_index COLOR_SPACES (colorSpaceIdx (self w)) = Some name
    ∧ getValues w'
      = Ok [ ("colorSpaceName", PyStr name);
             ("ch0Low", PyInt (pos "Ch0 Low"));
             ("ch0High", PyInt (pos "Ch0 High"));
             ("ch1Low", PyInt (pos "Ch1 Low"));
             ("ch1High", PyInt (pos "Ch1 High"));
             ("ch2Low", PyInt (pos "Ch2 Low"));
             ("ch2High", PyInt (pos "Ch2 High")) ] w'.
Proof.
  intros w.
  assert (Hidx : 0 ≤ colorSpaceIdx (self w) < 7) by (by vm_compute).
  exact (X14_getValues_after_onTrackbar sample_cvtColor 9 w Hidx).
Defined.

Lemma X15_witness :
  let w := world_of (init "image" (SrcPath "nofile.png") ∅) in
  ∃ e w', start sample_cvtColor sample_imread sample_VideoCapture [] w = Aborted e w'
          ∧ e = (if bool_decide (mode (self w) = "image") then CvError else RuntimeError)
          ∧ gui w' = gui w
          ∧ colorSpaceIdx (self w') = colorSpaceIdx (self w)
          ∧ bounds (self w') = bounds (self w).
Proof.
  intros w.
  exact (X15_start_source_unavailable sample_cvtColor sample_imread sample_VideoCapture [] w
           (or_introl (conj eq_refl eq_refl))).
Defined.

Lemma X16_witness :
  let args := mkArgs None None 0 in
  let polls := [mkPoll [TrackbarEvent "Ch0 Low" 100; MouseEvent EVENT_RBUTTONDOWN 0 0 0] (-1)] in
  (main args).1 ≠ "image"
  ∧ ∀ e w', run sample_cvtColor sample_imread sample_VideoCapture args polls ∅ ≠ Aborted e w'.
Proof.
  intros args polls.
  assert (Hmode : (main args).1 ≠ "image") by discriminate.
  split; [exact Hmode |].
  apply (X16_run_does_not_raise sample_cvtColor sample_imread sample_VideoCapture args polls ∅).
  right. split; [exact Hmode |].
  eexists. split; [reflexivity |].
  repeat constructor; apply sample_three_channels.
Defined.

Lemma X17_witness :
  let w := world_of (init "cam" (SrcCam 0) ∅) in
  let polls := [mkPoll [] (-1); mkPoll [MouseEvent EVENT_LBUTTONDOWN 0 0 0] ord_q] in
  capture_loop sample_cvtColor ([sample_frame; [[(1, 2, 3)]]] ++ [sample_frame; sample_frame])
    polls w
  = capture_loop sample_cvtColor [sample_frame; [[(1, 2, 3)]]] polls w.
Proof.
  intros w polls.
  exact (X17_q_ends_capture_loop sample_cvtColor [sample_frame; [[(1, 2, 3)]]]
           [sample_frame; sample_frame] polls
           (mkPoll [MouseEvent EVENT_LBUTTONDOWN 0 0 0] ord_q) 1 w
           eq_refl eq_refl eq_refl).
Defined.

Lemma X18_witness :
  let w := world_of (init "cam" (SrcCam 0) ∅) in
  let polls := [mkPoll [MouseEvent EVENT_LBUTTONDOWN 0 0 0; TrackbarEvent "Ch1 High" 90] 32] in
  ∃ w', capture_loop sample_cvtColor [sample_frame; [[(1, 2, 3)]]] polls w = Finished w'
        ∧ img (self w') = ImgNone
        ∧ let w'' := mkWorld (set_img (ImgFrame [[(1, 2, 3)]]) (self w')) (gui w') in
          thresholdImage sample_cvtColor w'' = Ok tt w''.
Proof.
  intros w polls.
  apply (X18_capture_loop_end_of_stream sample_cvtColor
           [sample_frame; [[(1, 2, 3)]]] polls [[(1, 2, 3)]] w).
  - apply init_consistent.
  - repeat constructor; apply sample_three_channels.
  - reflexivity.
  - repeat constructor. discriminate.
Defined.
